(** * backend/app.py: the document relay in front of the Ollama container

    A shallow embedding of the FastAPI handlers of [backend/app.py]
    ([ollama_start], [upload_file], [chat]) and of the helpers they call,
    followed by the properties of the ingestion and prompt pipeline.

    Conventions.
    - A Python [str] is the list of its code points ([pystr]); [len] is
      [length], [s[:n]] is [firstn n s], [+] is [++].
    - Everything the handlers ask of the machine they run on (docker through
      [subprocess], HTTP through [requests], the file system, [pdfplumber],
      [os.urandom]) is a method of the class [Runtime], over an abstract
      world [W].  Handlers run in the monad [M]: it threads the world,
      appends every external call to a trace, and carries Python
      exceptions. *)

From Stdlib Require Import String Ascii List NArith ZArith Bool Lia.
Import ListNotations.

Set Implicit Arguments.

(** ** Python strings *)

Module Py.

Definition pystr := list N.

(** A source literal, character by character. *)
Definition lit (s : string) : pystr :=
  map N_of_ascii (list_ascii_of_string s).

Definition LF : N := 10.
Definition CR : N := 13.

Fixpoint eqb (a b : pystr) : bool :=
  match a, b with
  | [], [] => true
  | x :: a', y :: b' => N.eqb x y && eqb a' b'
  | _, _ => false
  end.

(** Truth value of a [str]: non-empty. *)
Definition truthy (s : pystr) : bool :=
  match s with [] => false | _ :: _ => true end.

(** [str.isspace] on one code point (CPython's [_PyUnicode_IsWhitespace]). *)
Definition isspace (c : N) : bool :=
  ((9 <=? c) && (c <=? 13) || (28 <=? c) && (c <=? 32)
   || (c =? 133) || (c =? 160) || (c =? 5760)
   || (8192 <=? c) && (c <=? 8202)
   || (c =? 8232) || (c =? 8233) || (c =? 8239) || (c =? 8287)
   || (c =? 12288))%N.

Fixpoint lstrip (s : pystr) : pystr :=
  match s with
  | [] => []
  | c :: s' => if isspace c then lstrip s' else s
  end.

Definition rstrip (s : pystr) : pystr := rev (lstrip (rev s)).

(** [s.strip()] *)
Definition strip (s : pystr) : pystr := rstrip (lstrip s).

Fixpoint startswith (s p : pystr) : bool :=
  match p, s with
  | [], _ => true
  | x :: p', y :: s' => N.eqb x y && startswith s' p'
  | _ :: _, [] => false
  end.

(** [s.endswith(suf)] *)
Definition endswith (s suf : pystr) : bool :=
  (length suf <=? length s)%nat
  && eqb (skipn (length s - length suf) s) suf.

(** [sub in s] *)
Fixpoint contains (sub s : pystr) : bool :=
  startswith s sub
  || match s with
     | [] => false
     | _ :: s' => contains sub s'
     end.

(** [str.lower] on one code point.  The ASCII letters are written out; the
    mapping of the other code points is the Unicode table of the interpreter,
    taken as the parameter [unicode_lower]. *)
Definition lower_char (unicode_lower : N -> pystr) (c : N) : pystr :=
  if ((65 <=? c) && (c <=? 90))%N then [(c + 32)%N]
  else if (c <? 128)%N then [c]
  else unicode_lower c.

Definition lower (unicode_lower : N -> pystr) (s : pystr) : pystr :=
  flat_map (lower_char unicode_lower) s.

(** Line boundaries of [str.splitlines]. *)
Definition islinebreak (c : N) : bool :=
  ((10 <=? c) && (c <=? 13) || (28 <=? c) && (c <=? 30)
   || (c =? 133) || (c =? 8232) || (c =? 8233))%N.

(** [s.splitlines()]: [cur] is the current line, reversed; [after_cr] says
    that the previous character was a carriage return, so that a line feed
    right after it belongs to the same boundary. *)
Fixpoint splitlines_from (after_cr : bool) (cur : pystr) (s : pystr)
  : list pystr :=
  match s with
  | [] => match cur with [] => [] | _ :: _ => [rev cur] end
  | c :: s' =>
      if after_cr && (c =? LF)%N then splitlines_from false cur s'
      else if islinebreak c
           then rev cur :: splitlines_from (c =? CR)%N [] s'
           else splitlines_from false (c :: cur) s'
  end.

Definition splitlines (s : pystr) : list pystr := splitlines_from false [] s.

(** [s.split(sep, 1)] for a one-character separator: the text before the
    first [sep] and the text after it, or [None] when [sep] does not occur
    (the split then has one element). *)
Fixpoint split1 (sep : N) (s : pystr) : option (pystr * pystr) :=
  match s with
  | [] => None
  | c :: s' =>
      if (c =? sep)%N then Some ([], s')
      else match split1 sep s' with
           | Some (a, b) => Some (c :: a, b)
           | None => None
           end
  end.

(** [os.path.join(a, b)] of [posixpath], for two components. *)
Definition path_join (a b : pystr) : pystr :=
  if startswith b (lit "/") then b
  else if negb (truthy a) || endswith a (lit "/") then a ++ b
  else a ++ lit "/" ++ b.

End Py.

Import Py.

(** ** Values exchanged with the outside *)

(** A parsed JSON document, as [json.loads] and [Response.json] build it; a
    [dict] keeps its items in order and is read by [dict_get]. *)
#[local] Unset Elimination Schemes.
Inductive json : Type :=
| JNull
| JBool (b : bool)
| JInt (z : Z)
| JStr (s : pystr)
| JList (l : list json)
| JDict (items : list (pystr * json)).
#[local] Set Elimination Schemes.

(** Python exceptions, by the classes the handlers tell apart: [str(e)] is
    the message. [HTTPError] is the subclass of [RequestException] that
    [raise_for_status] raises; [RequestException] stands for every other
    exception of [requests]; [Exception] for all the rest. *)
Inductive exn : Type :=
| HTTPError (msg : pystr)
| RequestException (msg : pystr)
| Exception (msg : pystr).

Definition str_of_exn (e : exn) : pystr :=
  match e with
  | HTTPError m | RequestException m | Exception m => m
  end.

(** What [requests] hands back: the status, the message of the [HTTPError]
    that [raise_for_status] builds for it, and the outcome of [.json()]. *)
Record HttpResponse : Type := {
  status_code : Z;
  http_error_msg : pystr;
  json_body : exn + json
}.

(** A page of an opened PDF: the outcome of [extract_text()] ([None] is
    Python's [None]) and, per resolution, the PNG bytes of
    [to_image(resolution=r).original] saved with [format="PNG"]. *)
Record PdfPage : Type := {
  extract_text : exn + option pystr;
  to_image_png : Z -> exn + list Byte.byte
}.

Record Pdf : Type := {
  pages : list PdfPage;
  metadata : list (pystr * pystr)
}.

(** [UploadFile]: the client's file name and the bytes [file.file.read()]
    returns. *)
Record UploadFile : Type := {
  filename : option pystr;
  file_bytes : list Byte.byte
}.

(** The reply of a handler: [JSONResponse(content, status_code)] (a returned
    [dict] is a [JSONResponse] with status 200), or an exception that left
    the handler. *)
Inductive Response : Type :=
| JSONResponse (content : json) (status : Z)
| Unhandled (e : exn).

(** Calls that leave the process, in the order they are made. *)
Inductive Event : Type :=
| Subprocess (cmd : list pystr)
| HttpGet (url : pystr)
| HttpPost (url : pystr) (body : json) (timeout : option Z)
| PathExists (path : pystr)
| PathGetsize (path : pystr)
| PdfOpen (path : pystr)
| OpenRead (path : pystr)
| OpenWrite (path : pystr) (data : list Byte.byte)
| Urandom (n : nat).

(** The machine the service runs on.  [subprocess_stdout] is
    [subprocess.run(cmd, capture_output=True, text=True).stdout]: the source
    uses it for [docker ps] only, which lists and changes nothing;
    [subprocess_exec] is [subprocess.run(cmd)], which may change the world
    ([docker rm], [docker run]). [inl] is a raised exception. [read_text] is
    [open(path, "r", encoding="utf-8", errors="ignore").read()].
    The machine is not the handler's alone: containers are started and
    stopped from outside. A handler that launches the same command a second
    time finds the machine as it is by then, [later w]; the answers of two
    launches of one command need not agree. *)
Class Runtime (W : Type) : Type := {
  unicode_lower : N -> pystr;
  platform_system : W -> pystr;
  subprocess_stdout : list pystr -> W -> exn + pystr;
  subprocess_exec : list pystr -> W -> exn + W;
  requests_get : pystr -> W -> exn + HttpResponse;
  requests_post : pystr -> json -> option Z -> W -> (exn + HttpResponse) * W;
  path_exists : pystr -> W -> bool;
  path_getsize : pystr -> W -> exn + Z;
  pdfplumber_open : pystr -> W -> exn + Pdf;
  read_text : pystr -> W -> exn + pystr;
  write_bytes : pystr -> list Byte.byte -> W -> exn + W;
  os_urandom : nat -> W -> list Byte.byte * W;
  later : W -> W
}.

(** ** Pure helpers of the standard library *)

Fixpoint dict_lookup (items : list (pystr * json)) (key : pystr)
  : option json :=
  match items with
  | [] => None
  | (k, v) :: rest => if Py.eqb k key then Some v else dict_lookup rest key
  end.

(** [d.get(key, default)]; a value that is not a [dict] has no [get]. *)
Definition dict_get (d : json) (key : pystr) (default : json) : exn + json :=
  match d with
  | JDict items =>
      inr (match dict_lookup items key with Some v => v | None => default end)
  | _ => inl (Exception (lit "object has no attribute 'get'"))
  end.

(** Iteration over a JSON value: a list yields its elements, a dict its keys,
    a string its characters; nothing else is iterable. *)
Definition py_iter (v : json) : exn + list json :=
  match v with
  | JList l => inr l
  | JDict items => inr (map (fun kv => JStr (fst kv)) items)
  | JStr s => inr (map (fun c => JStr [c]) s)
  | _ => inl (Exception (lit "object is not iterable"))
  end.

(** [v == s] for a string [s]. *)
Definition json_eq_str (v : json) (s : pystr) : bool :=
  match v with JStr t => Py.eqb t s | _ => false end.

(** [metadata.get(key, '')] on the metadata of a PDF. *)
Fixpoint metadata_get (md : list (pystr * pystr)) (key : pystr) : pystr :=
  match md with
  | [] => []
  | (k, v) :: rest => if Py.eqb k key then v else metadata_get rest key
  end.

(** [base64.b64encode(bytes).decode()] *)
Definition b64_char (i : N) : N :=
  (if i <? 26 then 65 + i
   else if i <? 52 then 97 + (i - 26)
   else if i <? 62 then 48 + (i - 52)
   else if i =? 62 then 43 else 47)%N.

Fixpoint b64_groups (bs : list N) : pystr :=
  match bs with
  | [] => []
  | [a] => [b64_char (a / 4); b64_char ((a mod 4) * 16); 61; 61]%N
  | [a; b] =>
      [b64_char (a / 4); b64_char ((a mod 4) * 16 + b / 16);
       b64_char ((b mod 16) * 4); 61]%N
  | a :: b :: c :: rest =>
      [b64_char (a / 4); b64_char ((a mod 4) * 16 + b / 16);
       b64_char ((b mod 16) * 4 + c / 64); b64_char (c mod 64)]%N
      ++ b64_groups rest
  end.

Definition b64encode (bs : list Byte.byte) : pystr :=
  b64_groups (map Byte.to_N bs).

(** [uuid.uuid4()] is [UUID(bytes=os.urandom(16), version=4)]: the bytes read
    as a big-endian integer, with the variant and version bits forced. *)
Definition int_from_bytes (bs : list Byte.byte) : N :=
  fold_left (fun acc b => (acc * 256 + Byte.to_N b)%N) bs 0%N.

Definition uuid_v4_int (bs : list Byte.byte) : N :=
  let i := int_from_bytes bs in
  let i := N.ldiff i (N.shiftl 0xc000 48) in
  let i := N.lor i (N.shiftl 0x8000 48) in
  let i := N.ldiff i (N.shiftl 0xf000 64) in
  N.lor i (N.shiftl 4 76).

Definition hex_char (d : N) : N :=
  (if d <? 10 then 48 + d else 97 + (d - 10))%N.

(** ['%0kx' % n], for [n] below [16^k]. *)
Fixpoint hex_digits (k : nat) (n : N) : pystr :=
  match k with
  | O => []
  | S k' => hex_digits k' (n / 16)%N ++ [hex_char (n mod 16)%N]
  end.

(** [str(UUID(int=i))] *)
Definition uuid_str (i : N) : pystr :=
  let hex := hex_digits 32 i in
  firstn 8 hex ++ lit "-" ++ firstn 4 (skipn 8 hex) ++ lit "-"
  ++ firstn 4 (skipn 12 hex) ++ lit "-" ++ firstn 4 (skipn 16 hex)
  ++ lit "-" ++ skipn 20 hex.

(** ** Configuration *)

Definition UPLOAD_DIR : pystr := lit "uploads".
Definition OLLAMA_URL : pystr := lit "http://localhost:11434/api/generate".
Definition MODEL_NAME : pystr := lit "granite3.2:2b".
Definition OLLAMA_CONTAINER_NAME : pystr := lit "ollama_server".

(** ** The handler monad *)

Section Handlers.

Context {W : Type}.

(** A computation reads and changes the world, appends to the trace, and
    ends with a value or a raised exception. *)
Definition M (A : Type) : Type :=
  W -> list Event -> (exn + A) * W * list Event.

Definition ret {A : Type} (a : A) : M A := fun w t => (inr a, w, t).

Definition raise {A : Type} (e : exn) : M A := fun w t => (inl e, w, t).

Definition bind {A B : Type} (m : M A) (k : A -> M B) : M B :=
  fun w t =>
    match m w t with
    | (inr a, w', t') => k a w' t'
    | (inl e, w', t') => (inl e, w', t')
    end.

(** [try: m  except ... as e: h e] *)
Definition try_except {A : Type} (m : M A) (h : exn -> M A) : M A :=
  fun w t =>
    match m w t with
    | (inr a, w', t') => (inr a, w', t')
    | (inl e, w', t') => h e w' t'
    end.

(** A pure step that may raise. *)
Definition lift {A : Type} (r : exn + A) : M A :=
  match r with inl e => raise e | inr a => ret a end.

(** An external call that only reads the world. *)
Definition query {A : Type} (ev : Event) (f : W -> exn + A) : M A :=
  fun w t => (f w, w, t ++ [ev]).

(** An external call that may change the world; when it raises, the world
    is taken to be as before. *)
Definition command (ev : Event) (f : W -> exn + W) : M unit :=
  fun w t =>
    match f w with
    | inr w' => (inr tt, w', t ++ [ev])
    | inl e => (inl e, w, t ++ [ev])
    end.

(** Running a handler from a world: its reply, the world it leaves and the
    calls it made. *)
Definition finish (r : (exn + Response) * W * list Event)
  : Response * W * list Event :=
  match r with
  | (inr reply, w', t) => (reply, w', t)
  | (inl e, w', t) => (Unhandled e, w', t)
  end.

Definition run (h : M Response) (w : W) : Response * W * list Event :=
  finish (h w []).

Definition reply_of (r : Response * W * list Event) : Response :=
  fst (fst r).
Definition world_of (r : Response * W * list Event) : W := snd (fst r).
Definition calls_of (r : Response * W * list Event) : list Event := snd r.

End Handlers.

Arguments M : clear implicits.

Declare Scope py_scope.
Delimit Scope py_scope with py.
Notation "x <- m ;; k" := (bind m (fun x => k))
  (at level 61, m at next level, right associativity) : py_scope.
Notation "m ;; k" := (bind m (fun _ => k))
  (at level 61, right associativity) : py_scope.
Notation "' pat <- m ;; k" := (bind m (fun x => match x with pat => k end))
  (at level 61, pat pattern, m at next level, right associativity) : py_scope.
Local Open Scope py_scope.

(** ** The source, function by function *)

Section Service.

Context {W : Type} {RT : Runtime W}.

Definition subprocess_run_capture (cmd : list pystr) : M W pystr :=
  query (Subprocess cmd) (subprocess_stdout cmd).

Definition subprocess_run (cmd : list pystr) : M W unit :=
  command (Subprocess cmd) (subprocess_exec cmd).

Definition docker_ps_names : list pystr :=
  [lit "docker"; lit "ps"; lit "--filter";
   lit "name=" ++ OLLAMA_CONTAINER_NAME; lit "--format"; lit "{{.Names}}"].

(** [is_ollama_running] *)
Definition is_ollama_running : M W bool :=
  try_except
    (stdout <- subprocess_run_capture docker_ps_names ;;
     ret (contains OLLAMA_CONTAINER_NAME stdout))
    (fun _ => ret false).

Definition docker_ps_all : list pystr :=
  [lit "docker"; lit "ps"; lit "-a"; lit "--filter";
   lit "name=" ++ OLLAMA_CONTAINER_NAME; lit "--format";
   lit "{{.ID}}:{{.Status}}"].

(** The loop of [remove_stopped_ollama_container] over the lines of
    [docker ps -a]; a line without a colon fails to unpack. *)
Fixpoint remove_listed (lines : list pystr) : M W unit :=
  match lines with
  | [] => ret tt
  | line :: rest =>
      (if truthy line then
         match split1 58 line with
         | None => raise (Exception (lit "not enough values to unpack"))
         | Some (container_id, status) =>
             if contains (lit "Exited") status
                || contains (lit "Created") status
                || contains (lit "Dead") status
             then subprocess_run [lit "docker"; lit "rm"; container_id]
             else ret tt
         end
       else ret tt) ;;
      remove_listed rest
  end.

(** [remove_stopped_ollama_container] *)
Definition remove_stopped_ollama_container : M W unit :=
  try_except
    (stdout <- subprocess_run_capture docker_ps_all ;;
     remove_listed (splitlines (strip stdout)))
    (fun _ => ret tt).

Definition docker_run_cmd (system : pystr) : list pystr :=
  [lit "docker"; lit "run"; lit "-d"; lit "--name"; OLLAMA_CONTAINER_NAME;
   lit "-p"; lit "11434:11434"]
  ++ (if Py.eqb system (lit "Linux") then [lit "--gpus"; lit "all"] else [])
  ++ [lit "ollama/ollama"].

(** [start_ollama_container] *)
Definition start_ollama_container : M W bool :=
  running <- is_ollama_running ;;
  if negb running then
    remove_stopped_ollama_container ;;
    system <- (fun w t => (inr (platform_system w), w, t)) ;;
    subprocess_run (docker_run_cmd system) ;;
    ret true
  else ret false.

Definition tags_url : pystr := lit "http://localhost:11434/api/tags".

(** [r.raise_for_status()]: a status from 400 to 599 raises. *)
Definition raise_for_status (r : HttpResponse) : M W unit :=
  if ((400 <=? status_code r) && (status_code r <? 600))%Z
  then raise (HTTPError (http_error_msg r))
  else ret tt.

(** [any(m.get("name", "") == MODEL_NAME for m in tags)] *)
Fixpoint any_model_named (tags : list json) : exn + bool :=
  match tags with
  | [] => inr false
  | m :: rest =>
      match dict_get m (lit "name") (JStr []) with
      | inl e => inl e
      | inr name =>
          if json_eq_str name MODEL_NAME then inr true
          else any_model_named rest
      end
  end.

(** [is_model_available] *)
Definition is_model_available : M W bool :=
  try_except
    (r <- query (HttpGet tags_url) (requests_get tags_url) ;;
     raise_for_status r ;;
     data <- lift (json_body r) ;;
     tags <- lift (dict_get data (lit "models") (JList [])) ;;
     items <- lift (py_iter tags) ;;
     lift (any_model_named items))
    (fun _ => ret false).

(** The time between two launches of the same command. *)
Definition next_launch : M W unit :=
  fun w t => (inr tt, later w, t).

(** [ollama_start], the handler of [POST /ollama/start]. When
    [start_ollama_container] has found the service running, [docker ps] is
    launched a second time: this is the one place where the source asks the
    same question twice. *)
Definition ollama_start : M W Response :=
  started <- start_ollama_container ;;
  now_running <- (if started then ret true
                  else next_launch ;; is_ollama_running) ;;
  ret (JSONResponse (JDict [(lit "started", JBool now_running)]) 200).

(** [str(uuid.uuid4())]; [UUID] refuses a byte string that is not 16 long. *)
Definition uuid4_str : M W pystr :=
  bs <- (fun w t =>
           let '(bs, w') := os_urandom 16 w in (inr bs, w', t ++ [Urandom 16])) ;;
  if (length bs =? 16)%nat then ret (uuid_str (uuid_v4_int bs))
  else raise (Exception (lit "bytes is not a 16-char string")).

Definition json_of_optstr (o : option pystr) : json :=
  match o with Some s => JStr s | None => JNull end.

(** [upload_file], the handler of [POST /upload] *)
Definition upload_file (file : UploadFile) : M W Response :=
  file_id <- uuid4_str ;;
  let file_path := path_join UPLOAD_DIR file_id in
  command (OpenWrite file_path (file_bytes file))
          (write_bytes file_path (file_bytes file)) ;;
  ret (JSONResponse
         (JDict [(lit "file_id", JStr file_id);
                 (lit "filename", json_of_optstr (filename file))]) 200).

(** [ChatRequest] *)
Record ChatRequest : Type := {
  prompt : option pystr;
  file_id : option pystr;
  manual_text : option pystr
}.

Definition error (msg : pystr) (status : Z) : Response :=
  JSONResponse (JDict [(lit "error", JStr msg)]) status.

(** [x or ""] for an optional string. Python takes the right operand when
    [x] is [None] and also when [x] is the empty string, which is that
    operand: the source itself gives an unset field and an empty one the
    same value. *)
Definition or_empty (o : option pystr) : pystr :=
  match o with Some s => s | None => [] end.

(** Truth value of an optional string, as in [if request.manual_text] and
    [elif request.file_id]: [None] and the empty string are both false. *)
Definition opt_truthy (o : option pystr) : bool :=
  match o with Some s => truthy s | None => false end.

(** The 10MB limit of [chat]. *)
Definition MAX_FILE_SIZE : Z := 10 * 1024 * 1024.

(** The loop of [chat] over [pdf.pages]: the text of every page that has
    some, each followed by a newline. *)
Fixpoint extract_pages (ps : list PdfPage) (extracted_text : pystr)
  : exn + pystr :=
  match ps with
  | [] => inr extracted_text
  | page :: rest =>
      match extract_text page with
      | inl e => inl e
      | inr text =>
          extract_pages rest
            (if opt_truthy text
             then extracted_text ++ or_empty text ++ [LF]
             else extracted_text)
      end
  end.

(** [pdf.pages[0]] *)
Definition first_page (pdf : Pdf) : exn + PdfPage :=
  match pages pdf with
  | page :: _ => inr page
  | [] => inl (Exception (lit "list index out of range"))
  end.

(** What the file part of [chat] leaves for the rest of the handler: an
    early reply, or [file_content] and [images]. *)
Definition Extracted : Type := (Response + pystr * list pystr)%type.

(** [chat], lines 145-172: the branch for a path that ends in [.pdf]. *)
Definition chat_pdf (file_path : pystr) : M W Extracted :=
  try_except
    (pdf <- query (PdfOpen file_path) (pdfplumber_open file_path) ;;
     extracted_text <- lift (extract_pages (pages pdf) []) ;;
     if truthy (strip extracted_text) then ret (inr (extracted_text, []))
     else
       page <- lift (first_page pdf) ;;
       png <- lift (to_image_png page 300) ;;
       let img_base64 := b64encode png in
       let title :=
         let t := metadata_get (metadata pdf) (lit "Title") in
         if truthy t then t else lit "Unknown" in
       ret (inr (lit "Document metadata title: " ++ title, [img_base64])))
    (fun e => ret (inl (error (lit "Failed to process PDF: " ++ str_of_exn e)
                              400))).

(** [chat], lines 173-181: the branch for any other path, read as text. *)
Definition chat_text (file_path : pystr) : M W Extracted :=
  try_except
    (file_content <- query (OpenRead file_path) (read_text file_path) ;;
     ret (inr (file_content, [])))
    (fun e => ret (inl (error (lit "Failed to read file: " ++ str_of_exn e)
                              400))).

(** [chat], lines 137-185: the branch [elif request.file_id]. *)
Definition chat_file (fid : pystr) : M W Extracted :=
  let file_path := path_join UPLOAD_DIR fid in
  found <- query (PathExists file_path)
                 (fun w => inr (path_exists file_path w)) ;;
  if negb found then ret (inl (error (lit "File not found") 404)) else
  size <- query (PathGetsize file_path) (path_getsize file_path) ;;
  if (size >? MAX_FILE_SIZE)%Z
  then ret (inl (error (lit "File too large") 400)) else
  r <- (if endswith (lower unicode_lower file_path) (lit ".pdf")
        then chat_pdf file_path
        else chat_text file_path) ;;
  match r with
  | inl reply => ret (inl reply)
  | inr (file_content, images) =>
      if negb (truthy (strip file_content)) && negb (0 <? length images)%nat
      then ret (inl (error
             (lit "No text or image could be extracted from the file") 400))
      else ret (inr (file_content, images))
  end.

(** [chat], lines 190-200: the part under [# Construct prompt]. *)
Definition construct_prompt (file_content : pystr) (images : list pystr)
    (prompt : pystr) : pystr :=
  if truthy (strip file_content) then
    if truthy (strip prompt)
    then lit "The user has uploaded a document. Document content:" ++ [LF]
         ++ file_content ++ [LF; LF] ++ lit "User message: " ++ prompt
    else lit "The user has uploaded a document. Document content:" ++ [LF]
         ++ file_content ++ [LF; LF] ++ lit "Please analyze this document."
  else if (0 <? length images)%nat then
    if truthy (strip prompt)
    then lit "The user has uploaded a document image. User message: "
         ++ prompt
    else lit "The user has uploaded a document image. Please analyze the document content."
  else prompt.

Definition max_prompt_length : nat := 4000.
Definition truncation_marker : pystr := lit "... [Prompt truncated]".

(** [chat], lines 202-206: the part under [# Truncate prompt]. *)
Definition truncate_prompt (prompt : pystr) : pystr :=
  if (max_prompt_length <? length prompt)%nat
  then firstn max_prompt_length prompt ++ truncation_marker
  else prompt.

Definition payload (prompt : pystr) (images : list pystr) : json :=
  JDict [(lit "model", JStr MODEL_NAME);
         (lit "prompt", JStr prompt);
         (lit "images", JList (map JStr images));
         (lit "stream", JBool false)].

(** [chat], lines 208-226: the call to Ollama and the reply. *)
Definition chat_generate (prompt : pystr) (images : list pystr)
  : M W Response :=
  try_except
    (response <- (fun w t =>
                    let body := payload prompt images in
                    let '(r, w') := requests_post OLLAMA_URL body (Some 180%Z) w in
                    (r, w', t ++ [HttpPost OLLAMA_URL body (Some 180%Z)])) ;;
     raise_for_status response ;;
     data <- lift (json_body response) ;;
     text <- lift (dict_get data (lit "response") (JStr [])) ;;
     ret (JSONResponse (JDict [(lit "response", text)]) 200))
    (fun e =>
       match e with
       | HTTPError _ =>
           ret (error (lit "Ollama API error: " ++ str_of_exn e) 500)
       | RequestException _ =>
           ret (error (lit "Failed to connect to Ollama: " ++ str_of_exn e)
                      500)
       | Exception _ => raise e
       end).

(** [chat], lines 127-226, after the two readiness checks: the content is
    chosen, the prompt composed and cut, and Ollama called. *)
Definition chat_answer (request : ChatRequest) : M W Response :=
  let prompt0 := or_empty (prompt request) in
  r <- (if opt_truthy (manual_text request)
           && truthy (strip (or_empty (manual_text request)))
        then ret (inr (or_empty (manual_text request), []))
        else if opt_truthy (file_id request)
        then chat_file (or_empty (file_id request))
        else ret (inr ([], []))) ;;
  match r with
  | inl reply => ret reply
  | inr (file_content, images) =>
      if negb (truthy (strip file_content)) && negb (0 <? length images)%nat
         && negb (truthy (strip prompt0))
      then ret (error (lit "No prompt, file, or manual text provided.") 400)
      else chat_generate
             (truncate_prompt (construct_prompt file_content images prompt0))
             images
  end.

(** [chat], the handler of [POST /chat]: lines 122-125, then the rest. *)
Definition chat (request : ChatRequest) : M W Response :=
  running <- is_ollama_running ;;
  if negb running
  then ret (error (lit "Ollama container not running") 400) else
  available <- is_model_available ;;
  if negb available
  then ret (error (lit "Model " ++ MODEL_NAME ++ lit " not available") 400)
  else chat_answer request.

(** ** Observations and names used in the statements *)

Definition value_of {A : Type} (d : A) (r : (exn + A) * W * list Event)
  : A :=
  match r with
  | (inr a, _, _) => a
  | (inl _, _, _) => d
  end.

(** What [is_ollama_running] answers in a world. *)
Definition service_running (w : W) : bool :=
  value_of false (is_ollama_running w []).

(** What [is_model_available] answers in a world. *)
Definition model_available (w : W) : bool :=
  value_of false (is_model_available w []).

(** A request carries a manual text that is not blank. *)
Definition has_manual_text (request : ChatRequest) : bool :=
  opt_truthy (manual_text request)
  && truthy (strip (or_empty (manual_text request))).

Definition is_file_event (ev : Event) : bool :=
  match ev with
  | PathExists _ | PathGetsize _ | PdfOpen _ | OpenRead _ | OpenWrite _ _ =>
      true
  | _ => false
  end.

Definition is_generate_call (ev : Event) : bool :=
  match ev with HttpPost _ _ _ => true | _ => false end.

(** The calls of the file branch: the existence test, then the size, then
    one attempt to open the file, as a PDF exactly when the lowered path
    ends in [.pdf]. The world is left as it is. *)
Inductive file_calls (path : pystr) : list Event -> Prop :=
| calls_missing : file_calls path [PathExists path]
| calls_sized : file_calls path [PathExists path; PathGetsize path]
| calls_pdf :
    endswith (lower unicode_lower path) (lit ".pdf") = true ->
    file_calls path [PathExists path; PathGetsize path; PdfOpen path]
| calls_text :
    endswith (lower unicode_lower path) (lit ".pdf") = false ->
    file_calls path [PathExists path; PathGetsize path; OpenRead path].

(** The reply that [chat_generate] builds from the outcome of the POST. *)
Definition reply_of_post (r : exn + HttpResponse) : exn + Response :=
  match r with
  | inl (HTTPError m) => inr (error (lit "Ollama API error: " ++ m) 500)
  | inl (RequestException m) =>
      inr (error (lit "Failed to connect to Ollama: " ++ m) 500)
  | inl (Exception m) => inl (Exception m)
  | inr response =>
      if ((400 <=? status_code response) && (status_code response <? 600))%Z
      then inr (error (lit "Ollama API error: " ++ http_error_msg response)
                      500)
      else match json_body response with
           | inl (HTTPError m) =>
               inr (error (lit "Ollama API error: " ++ m) 500)
           | inl (RequestException m) =>
               inr (error (lit "Failed to connect to Ollama: " ++ m) 500)
           | inl (Exception m) => inl (Exception m)
           | inr (JDict items) =>
               inr (JSONResponse
                      (JDict [(lit "response",
                               match dict_lookup items (lit "response") with
                               | Some v => v
                               | None => JStr []
                               end)]) 200)
           | inr _ => inl (Exception (lit "object has no attribute 'get'"))
           end
  end.

(** The reply of the handler after the generation call. *)
Definition finish_reply (r : exn + HttpResponse) : Response :=
  match reply_of_post r with
  | inr reply => reply
  | inl e => Unhandled e
  end.

(** What an extraction branch hands over: content, or the reply that reports
    its failure. *)
Definition extraction_outcome (label : pystr) (x : Extracted) : Prop :=
  (exists content images, x = inr (content, images))
  \/ (exists e, x = inl (error (label ++ str_of_exn e) 400)).

(** A character of a printed UUID: a lower-case hexadecimal digit or a
    hyphen. *)
Definition uuid_char (c : N) : bool :=
  ((48 <=? c) && (c <=? 57) || (97 <=? c) && (c <=? 102) || (c =? 45))%N.

(** The calls made while the content of a request is chosen: none for a
    manual text or a bare prompt, those of the file branch otherwise. *)
Definition content_calls (request : ChatRequest) (tr : list Event) : Prop :=
  if has_manual_text request then tr = []
  else if opt_truthy (file_id request)
  then file_calls (path_join UPLOAD_DIR (or_empty (file_id request))) tr
  else tr = [].

End Service.

(** The errors of the chat endpoint, under the names of the specification. *)
Definition ServiceUnavailable : Response :=
  error (lit "Ollama container not running") 400.
Definition ModelNotReady : Response :=
  error (lit "Model " ++ MODEL_NAME ++ lit " not available") 400.
Definition FileNotFound : Response := error (lit "File not found") 404.
Definition FileTooLarge : Response := error (lit "File too large") 400.
Definition NoContentProvided : Response :=
  error (lit "No prompt, file, or manual text provided.") 400.
Definition started_reply (b : bool) : Response :=
  JSONResponse (JDict [(lit "started", JBool b)]) 200.

(** ** A small concrete machine

    A world with one docker daemon, a few files and canned HTTP answers, to
    run the handlers on. *)

Module Sim.

Record File : Type := {
  size : Z;
  as_pdf : exn + Pdf;
  as_text : exn + pystr
}.

Record World : Type := {
  daemon_up : bool;
  container_up : bool;
  tags_reply : exn + HttpResponse;
  generate_reply : exn + HttpResponse;
  files : list (pystr * File);
  entropy : list Byte.byte
}.

Fixpoint find_file (fs : list (pystr * File)) (path : pystr) : option File :=
  match fs with
  | [] => None
  | (p, f) :: rest => if Py.eqb p path then Some f else find_file rest path
  end.

Definition no_such_file : exn :=
  Exception (lit "No such file or directory").

Definition with_file {A : Type} (w : World) (path : pystr)
    (k : File -> exn + A) : exn + A :=
  match find_file (files w) path with
  | Some f => k f
  | None => inl no_such_file
  end.

(** [docker ps] prints the container while it is up; with the daemon down
    every docker command prints nothing on standard output and fails
    without raising. [docker run] brings the container up. A written file
    reads back as the text of its bytes (they are ASCII in the runs below). *)
Definition stdout (cmd : list pystr) (w : World) : exn + pystr :=
  match cmd with
  | _ :: sub :: _ =>
      if daemon_up w && container_up w && Py.eqb sub (lit "ps")
         && negb (existsb (Py.eqb (lit "-a")) cmd)
      then inr (OLLAMA_CONTAINER_NAME ++ [LF])
      else inr []
  | _ => inr []
  end.

Definition exec (cmd : list pystr) (w : World) : exn + World :=
  match cmd with
  | _ :: sub :: _ =>
      if daemon_up w && Py.eqb sub (lit "run")
      then inr {| daemon_up := true; container_up := true;
                  tags_reply := tags_reply w;
                  generate_reply := generate_reply w;
                  files := files w; entropy := entropy w |}
      else inr w
  | _ => inr w
  end.

Definition write (path : pystr) (data : list Byte.byte) (w : World)
  : exn + World :=
  inr {| daemon_up := daemon_up w; container_up := container_up w;
         tags_reply := tags_reply w; generate_reply := generate_reply w;
         files := (path, {| size := Z.of_nat (length data);
                            as_pdf := inl (Exception (lit "No /Root object"));
                            as_text := inr (map Byte.to_N data) |})
                  :: files w;
         entropy := entropy w |}.

#[global] Instance runtime : Runtime World := {
  unicode_lower := fun c => [c];
  platform_system := fun _ => lit "Linux";
  subprocess_stdout := stdout;
  subprocess_exec := exec;
  requests_get := fun _ w => tags_reply w;
  requests_post := fun _ _ _ w => (generate_reply w, w);
  path_exists := fun p w =>
    match find_file (files w) p with Some _ => true | None => false end;
  path_getsize := fun p w => with_file w p (fun f => inr (size f));
  pdfplumber_open := fun p w => with_file w p as_pdf;
  read_text := fun p w => with_file w p as_text;
  write_bytes := write;
  os_urandom := fun n w => (firstn n (entropy w), w);
  later := fun w => w
}.

Definition ok_json (v : json) : exn + HttpResponse :=
  inr {| status_code := 200; http_error_msg := []; json_body := inr v |}.

Definition tags_with_model : json :=
  JDict [(lit "models", JList [JDict [(lit "name", JStr MODEL_NAME)]])].

Definition answer : json :=
  JDict [(lit "model", JStr MODEL_NAME); (lit "response", JStr (lit "fine"))].

Definition text_page (s : pystr) : PdfPage :=
  {| extract_text := inr (Some s);
     to_image_png := fun _ => inr [Byte.x89; Byte.x50] |}.

Definition scanned_page : PdfPage :=
  {| extract_text := inr None;
     to_image_png := fun _ => inr [Byte.x89; Byte.x50; Byte.x4e] |}.

Definition pdf_file (n : Z) (ps : list PdfPage) (md : list (pystr * pystr))
  : File :=
  {| size := n;
     as_pdf := inr {| pages := ps; metadata := md |};
     as_text := inr (lit "%PDF-1.4") |}.

Definition text_file (n : Z) (s : pystr) : File :=
  {| size := n;
     as_pdf := inl (Exception (lit "No /Root object"));
     as_text := inr s |}.

Definition disk : list (pystr * File) :=
  [(lit "uploads/report.PDF",
    pdf_file 2048 [text_page (lit "Quarterly figures")] []);
   (lit "uploads/scan.pdf",
    pdf_file 4096 [scanned_page] [(lit "Title", lit "Invoice 7")]);
   (lit "uploads/empty.pdf", pdf_file 512 [] []);
   (lit "uploads/notes", text_file 11 (lit "hello world"));
   (lit "uploads/at_cap", text_file MAX_FILE_SIZE (lit "x"));
   (lit "uploads/over_cap", text_file (MAX_FILE_SIZE + 1) (lit "x"))].

(** Everything up and the model pulled. *)
Definition ready : World :=
  {| daemon_up := true; container_up := true;
     tags_reply := ok_json tags_with_model;
     generate_reply := ok_json answer;
     files := disk;
     entropy := repeat Byte.xff 16 |}.

(** The container is not running yet. *)
Definition stopped : World :=
  {| daemon_up := true; container_up := false;
     tags_reply := inl (RequestException (lit "Connection refused"));
     generate_reply := inl (RequestException (lit "Connection refused"));
     files := disk;
     entropy := repeat Byte.xff 16 |}.

(** The docker daemon itself is down. *)
Definition daemon_down : World :=
  {| daemon_up := false; container_up := false;
     tags_reply := inl (RequestException (lit "Connection refused"));
     generate_reply := inl (RequestException (lit "Connection refused"));
     files := disk;
     entropy := repeat Byte.xff 16 |}.

(** The container runs but the model was never pulled. *)
Definition no_model : World :=
  {| daemon_up := true; container_up := true;
     tags_reply := ok_json (JDict [(lit "models", JList [])]);
     generate_reply := ok_json answer;
     files := disk;
     entropy := repeat Byte.xff 16 |}.

Definition request (p f m : option pystr) : ChatRequest :=
  {| prompt := p; file_id := f; manual_text := m |}.

(** An upload of two bytes under a name that ends in [.pdf], and the id it
    gets from the entropy of the worlds above. *)
Definition hello : UploadFile :=
  {| filename := Some (lit "hello.pdf");
     file_bytes := [Byte.x68; Byte.x69] |}.

Definition hello_id : pystr := lit "ffffffff-ffff-4fff-bfff-ffffffffffff".

(** A prompt one character over the limit. *)
Definition long_prompt : pystr := repeat 97%N 4001.

End Sim.

(** ** The remaining handlers *)

Section Control.

Context {W : Type} {RT : Runtime W}.

(** [requests.post(url, json=body, timeout=timeout)] *)
Definition requests_post_json (url : pystr) (body : json)
    (timeout : option Z) : M W HttpResponse :=
  fun w t =>
    let '(r, w') := requests_post url body timeout w in
    (r, w', t ++ [HttpPost url body timeout]).

Definition pull_url : pystr := lit "http://localhost:11434/api/pull".

Definition pull_body : json := JDict [(lit "name", JStr MODEL_NAME)].

(** [pull_model] *)
Definition pull_model : M W bool :=
  try_except
    (r <- requests_post_json pull_url pull_body None ;;
     raise_for_status r ;;
     ret true)
    (fun _ => ret false).

(** [ollama_status], the handler of [GET /ollama/status] *)
Definition ollama_status : M W Response :=
  running <- is_ollama_running ;;
  model_ready <- (if running then is_model_available else ret false) ;;
  ret (JSONResponse
         (JDict [(lit "docker_running", JBool running);
                 (lit "model_available", JBool model_ready)]) 200).

(** [ollama_pull_model], the handler of [POST /ollama/pull_model] *)
Definition ollama_pull_model : M W Response :=
  running <- is_ollama_running ;;
  if negb running
  then ret (error (lit "Ollama container not running") 400) else
  pulled <- pull_model ;;
  ret (JSONResponse (JDict [(lit "pulled", JBool pulled)]) 200).

(** Whether the outcome of a POST counts as a success for [pull_model]: a
    response came back and its status is not from 400 to 599. *)
Definition post_succeeded (r : exn + HttpResponse) : bool :=
  match r with
  | inr response =>
      negb ((400 <=? status_code response)
            && (status_code response <? 600))%Z
  | inl _ => false
  end.

(** The [docker rm] of one container. *)
Definition rm_call (container_id : pystr) : Event :=
  Subprocess [lit "docker"; lit "rm"; container_id].

(** The test of [remove_stopped_ollama_container] on a status. *)
Definition stale_status (status : pystr) : bool :=
  contains (lit "Exited") status
  || contains (lit "Created") status
  || contains (lit "Dead") status.

(** The ids that the loop of [remove_stopped_ollama_container] removes when
    nothing raises: those of the lines [id:status] with a stale status, in
    order, up to the first line that is not empty and has no colon. *)
Fixpoint stale_ids (lines : list pystr) : list pystr :=
  match lines with
  | [] => []
  | line :: rest =>
      if truthy line then
        match split1 58 line with
        | None => []
        | Some (container_id, status) =>
            if stale_status status then container_id :: stale_ids rest
            else stale_ids rest
        end
      else stale_ids rest
  end.

(** The machine after one [docker rm] that does not raise. *)
Definition docker_rm (w : W) (container_id : pystr) : W :=
  match subprocess_exec [lit "docker"; lit "rm"; container_id] w with
  | inr w' => w'
  | inl _ => w
  end.

(** What one page adds to [extracted_text]. *)
Definition page_line (page : PdfPage) : pystr :=
  match extract_text page with
  | inr (Some text) => if truthy text then text ++ [LF] else []
  | _ => []
  end.

(** The calls [chat] may make for a request: the two probes, the reads of
    the one path of its file id, and the generation call. *)
Definition chat_call (request : ChatRequest) (ev : Event) : Prop :=
  let path := path_join UPLOAD_DIR (or_empty (file_id request)) in
  ev = Subprocess docker_ps_names
  \/ ev = HttpGet tags_url
  \/ ev = PathExists path
  \/ ev = PathGetsize path
  \/ ev = PdfOpen path
  \/ ev = OpenRead path
  \/ exists body, ev = HttpPost OLLAMA_URL body (Some 180%Z).

(** The head of the document template. *)
Definition document_header : pystr :=
  lit "The user has uploaded a document. Document content:" ++ [LF].

End Control.

(** ** More files and a docker host with several containers *)

Module Lab.

Import Sim.

Definition locked_file : File :=
  {| size := 64;
     as_pdf := inl (Exception (lit "Permission denied"));
     as_text := inl (Exception (lit "Permission denied")) |}.

Definition broken_pdf : File :=
  {| size := 64;
     as_pdf := inl (Exception (lit "No /Root object! - Is this really a PDF?"));
     as_text := inr (lit "garbage") |}.

Definition unrenderable_page : PdfPage :=
  {| extract_text := inr (Some (lit "  "));
     to_image_png := fun _ => inl (Exception (lit "cannot render")) |}.

Definition shelf : list (pystr * File) :=
  [(lit "uploads/locked", locked_file);
   (lit "uploads/broken.pdf", broken_pdf);
   (lit "uploads/blank", text_file 3 (lit "  " ++ [LF]));
   (lit "uploads/smudge.pdf", pdf_file 900 [unrenderable_page] []);
   (lit "/etc/hostname", text_file 5 (lit "relay"))]
  ++ disk.

Definition with_reply (r : exn + HttpResponse) : World :=
  {| daemon_up := true; container_up := true;
     tags_reply := ok_json tags_with_model;
     generate_reply := r;
     files := shelf;
     entropy := repeat Byte.xff 16 |}.

(** Ready, with the larger shelf of files. *)
Definition stocked : World := with_reply (ok_json answer).

Definition overloaded_response : HttpResponse :=
  {| status_code := 503;
     http_error_msg := lit "503 Server Error: Service Unavailable";
     json_body := inr JNull |}.

Definition redirect_response : HttpResponse :=
  {| status_code := 302; http_error_msg := []; json_body := inr answer |}.

Definition list_response : HttpResponse :=
  {| status_code := 200; http_error_msg := [];
     json_body := inr (JList [JStr (lit "fine")]) |}.

Definition garbled_response : HttpResponse :=
  {| status_code := 200; http_error_msg := [];
     json_body := inl (RequestException (lit "Expecting value")) |}.

(** A document long enough to fill the prompt on its own. *)
Definition long_document : pystr := repeat 100%N 3948.

(** The concrete machine with a container that is stopped from outside
    before the next launch of a command. *)
Definition stop_container (w : World) : World :=
  {| daemon_up := daemon_up w; container_up := false;
     tags_reply := tags_reply w; generate_reply := generate_reply w;
     files := files w; entropy := entropy w |}.

Definition dying_runtime : Runtime World := {|
  unicode_lower := fun c => [c];
  platform_system := fun _ => lit "Linux";
  subprocess_stdout := stdout;
  subprocess_exec := exec;
  requests_get := fun _ w => tags_reply w;
  requests_post := fun _ _ _ w => (generate_reply w, w);
  path_exists := fun p w =>
    match find_file (files w) p with Some _ => true | None => false end;
  path_getsize := fun p w => with_file w p (fun f => inr (size f));
  pdfplumber_open := fun p w => with_file w p as_pdf;
  read_text := fun p w => with_file w p as_text;
  write_bytes := write;
  os_urandom := fun n w => (firstn n (entropy w), w);
  later := stop_container
|}.

(** A scanned PDF as an upload leaves it: under its UUID, with no
    extension. Read as text it shows its header. *)
Definition scanned_upload : World :=
  {| daemon_up := true; container_up := true;
     tags_reply := ok_json tags_with_model;
     generate_reply := ok_json answer;
     files := (lit "uploads/" ++ hello_id,
               pdf_file 4096 [scanned_page] [(lit "Title", lit "Invoice 7")])
              :: disk;
     entropy := repeat Byte.xff 16 |}.

(** A 204 answer: a success with no body to read. *)
Definition no_content_response : HttpResponse :=
  {| status_code := 204; http_error_msg := [];
     json_body := inl (RequestException (lit "Expecting value")) |}.

Definition null_response : HttpResponse :=
  {| status_code := 200; http_error_msg := []; json_body := inr JNull |}.

(** A docker host seen through its container list: the id and the status
    column of every container whose name matches the filter. *)
Record Host : Type := {
  containers : list (pystr * pystr);
  system : pystr
}.

Definition is_up (c : pystr * pystr) : bool :=
  startswith (snd c) (lit "Up").

Definition listing (cs : list (pystr * pystr)) : pystr :=
  flat_map (fun c => fst c ++ lit ":" ++ snd c ++ [LF]) cs.

Definition host_stdout (cmd : list pystr) (h : Host) : exn + pystr :=
  if existsb (Py.eqb (lit "-a")) cmd then inr (listing (containers h))
  else if existsb is_up (containers h)
       then inr (OLLAMA_CONTAINER_NAME ++ [LF])
       else inr [].

Definition host_exec (cmd : list pystr) (h : Host) : exn + Host :=
  match cmd with
  | [_; sub; container_id] =>
      if Py.eqb sub (lit "rm")
      then inr {| containers :=
                    filter (fun c => negb (Py.eqb (fst c) container_id))
                           (containers h);
                  system := system h |}
      else inr h
  | _ :: sub :: _ =>
      if Py.eqb sub (lit "run")
      then inr {| containers :=
                    containers h ++ [(lit "f00d", lit "Up 1 second")];
                  system := system h |}
      else inr h
  | _ => inr h
  end.

Definition host_runtime : Runtime Host := {|
  unicode_lower := fun c => [c];
  platform_system := system;
  subprocess_stdout := host_stdout;
  subprocess_exec := host_exec;
  requests_get := fun _ _ => inl (RequestException (lit "Connection refused"));
  requests_post := fun _ _ _ h =>
    (inl (RequestException (lit "Connection refused")), h);
  path_exists := fun _ _ => false;
  path_getsize := fun _ _ => inl no_such_file;
  pdfplumber_open := fun _ _ => inl no_such_file;
  read_text := fun _ _ => inl no_such_file;
  write_bytes := fun _ _ h => inr h;
  os_urandom := fun n h => (repeat Byte.x00 n, h);
  later := fun h => h
|}.

(** Two stopped containers left behind and one that keeps restarting. *)
Definition littered : Host :=
  {| containers := [(lit "a1", lit "Exited (0) 2 hours ago");
                    (lit "b2", lit "Restarting (1) 5 seconds ago");
                    (lit "c3", lit "Created")];
     system := lit "Darwin" |}.

End Lab.

(** * Properties *)

(** ** Strings *)

Lemma eqb_eq (a b : pystr) : Py.eqb a b = true <-> a = b.
Proof.
  revert b; induction a as [|x a IH]; intros [|y b]; simpl;
    try (split; [discriminate | congruence]); try tauto.
  rewrite andb_true_iff, N.eqb_eq, IH.
  split; [intros [-> ->]; reflexivity | intros E; inversion E; auto].
Qed.

Lemma lstrip_keeps (s : pystr) (c : N) :
  In c s -> isspace c = false -> lstrip s <> [].
Proof.
  induction s as [|x s IH]; simpl; [tauto|].
  intros [-> | Hin] Hc.
  - rewrite Hc; discriminate.
  - destruct (isspace x); [auto | discriminate].
Qed.

Lemma lstrip_head (s : pystr) :
  lstrip s = [] \/ exists c r, lstrip s = c :: r /\ isspace c = false.
Proof.
  induction s as [|x s IH]; simpl; [left; reflexivity|].
  destruct (isspace x) eqn:E; [exact IH|].
  right; exists x, s; auto.
Qed.

(** A string with a character that is not white space is not blank. *)
Lemma strip_truthy (s : pystr) (c : N) :
  In c s -> isspace c = false -> truthy (strip s) = true.
Proof.
  intros Hin Hc. unfold strip, rstrip.
  destruct (lstrip_head s) as [E | (d & r & E & Hd)].
  - exfalso; exact (lstrip_keeps s c Hin Hc E).
  - rewrite E.
    assert (H : lstrip (rev (d :: r)) <> []).
    { apply lstrip_keeps with (c := d); [|exact Hd].
      apply in_rev; rewrite rev_involutive; left; reflexivity. }
    destruct (lstrip (rev (d :: r))) as [|y l] eqn:E2; [congruence|].
    simpl. destruct (rev l ++ [y]) eqn:E3; [|reflexivity].
    destruct (rev l); discriminate.
Qed.

(** A blank string has only white space, so a non-blank one is non-empty. *)
Lemma strip_truthy_nonempty (s : pystr) :
  truthy (strip s) = true -> truthy s = true.
Proof. destruct s; [discriminate | reflexivity]. Qed.

Lemma endswith_suffix (s suf : pystr) :
  endswith s suf = true -> exists pre, s = pre ++ suf.
Proof.
  unfold endswith. rewrite andb_true_iff, eqb_eq. intros [_ E].
  exists (firstn (length s - length suf) s).
  rewrite <- E at 2. symmetry; apply firstn_skipn.
Qed.

(** ** The truncation step *)

Lemma marker_length : length truncation_marker = 22.
Proof. reflexivity. Qed.

Lemma truncate_prompt_short (p : pystr) :
  length p <= max_prompt_length -> truncate_prompt p = p.
Proof.
  intros H. unfold truncate_prompt.
  destruct (Nat.ltb_spec max_prompt_length (length p)); [lia | reflexivity].
Qed.

Lemma truncate_prompt_long (p : pystr) :
  max_prompt_length < length p ->
  truncate_prompt p = firstn max_prompt_length p ++ truncation_marker
  /\ length (truncate_prompt p) = max_prompt_length + 22.
Proof.
  intros H. unfold truncate_prompt.
  destruct (Nat.ltb_spec max_prompt_length (length p)); [|lia].
  split; [reflexivity|].
  rewrite length_app, length_firstn, marker_length. lia.
Qed.

Lemma truncate_prompt_bound (p : pystr) :
  length (truncate_prompt p) <= max_prompt_length + 22.
Proof.
  destruct (Nat.le_gt_cases (length p) max_prompt_length) as [H | H].
  - rewrite truncate_prompt_short by exact H. lia.
  - destruct (truncate_prompt_long p H) as [_ ->]. lia.
Qed.

(** ** The probes and the building blocks of [chat] *)

(** Case analysis on a scrutinee of the goal that has no [match] inside. *)
Ltac break_match :=
  match goal with
  | |- context [match ?x with _ => _ end] =>
      lazymatch x with
      | context [match _ with _ => _ end] => fail
      | _ => destruct x eqn:?
      end
  end.

Ltac unfold_monad :=
  unfold bind, try_except, lift, query, command, ret, raise in *.

Section Blocks.

Context {W : Type} {RT : Runtime W}.

Lemma is_ollama_running_eq (w : W) (t : list Event) :
  is_ollama_running w t
  = (inr (service_running w), w, t ++ [Subprocess docker_ps_names]).
Proof.
  unfold service_running, is_ollama_running, subprocess_run_capture, value_of.
  unfold_monad.
  destruct (subprocess_stdout docker_ps_names w); reflexivity.
Qed.

Lemma is_model_available_eq (w : W) (t : list Event) :
  is_model_available w t
  = (inr (model_available w), w, t ++ [HttpGet tags_url]).
Proof.
  unfold model_available, is_model_available, raise_for_status, value_of.
  unfold_monad.
  repeat (break_match; simpl in *; try congruence).
Qed.

Lemma remove_stopped_total (w : W) (t : list Event) :
  exists w' t', remove_stopped_ollama_container w t = (inr tt, w', t').
Proof.
  unfold remove_stopped_ollama_container. unfold_monad.
  repeat break_match; subst; eauto.
  destruct u; eauto.
Qed.

(** The PDF branch opens the file, leaves the world as it is and never
    raises. *)
Lemma chat_pdf_run (path : pystr) (w : W) (t : list Event) :
  exists x, chat_pdf path w t = (inr x, w, t ++ [PdfOpen path])
            /\ extraction_outcome (lit "Failed to process PDF: ") x.
Proof.
  unfold chat_pdf, extraction_outcome. unfold_monad.
  repeat (break_match; simpl in *; try congruence);
    repeat match goal with
           | H : (_, _, _) = (_, _, _) |- _ => inversion H; clear H; subst
           end; eauto 6.
Qed.

Lemma chat_text_run (path : pystr) (w : W) (t : list Event) :
  exists x, chat_text path w t = (inr x, w, t ++ [OpenRead path])
            /\ extraction_outcome (lit "Failed to read file: ") x.
Proof.
  unfold chat_text, extraction_outcome. unfold_monad.
  destruct (read_text path w); eauto 6.
Qed.

Lemma chat_file_run (fid : pystr) (w : W) (t : list Event) :
  exists res tr,
    chat_file fid w t = (res, w, t ++ tr)
    /\ file_calls (path_join UPLOAD_DIR fid) tr.
Proof.
  unfold chat_file.
  set (path := path_join UPLOAD_DIR fid).
  unfold bind at 1. unfold query at 1.
  destruct (path_exists path w); simpl.
  2:{ eexists _, _; split; [reflexivity | constructor]. }
  unfold bind at 1. unfold query at 1.
  destruct (path_getsize path w) as [e | size].
  { eexists _, _; split; [rewrite <- app_assoc; reflexivity | constructor]. }
  destruct (size >? MAX_FILE_SIZE)%Z.
  { eexists _, _; split;
      [unfold ret; rewrite <- app_assoc; reflexivity | constructor]. }
  unfold bind.
  destruct (endswith (lower unicode_lower path) (lit ".pdf")) eqn:Epdf.
  - destruct (chat_pdf_run path w ((t ++ [PathExists path])
                                     ++ [PathGetsize path])) as [x [-> _]].
    exists (match x with
            | inl reply => inr (inl reply)
            | inr (file_content, images) =>
                if negb (truthy (strip file_content))
                   && negb (0 <? length images)%nat
                then inr (inl (error
                  (lit "No text or image could be extracted from the file")
                  400))
                else inr (inr (file_content, images))
            end), [PathExists path; PathGetsize path; PdfOpen path].
    split; [|constructor; exact Epdf].
    rewrite <- !app_assoc; simpl.
    destruct x as [reply | [fc imgs]]; [reflexivity|].
    destruct (negb (truthy (strip fc)) && negb (0 <? length imgs)%nat);
      reflexivity.
  - destruct (chat_text_run path w ((t ++ [PathExists path])
                                      ++ [PathGetsize path])) as [x [-> _]].
    exists (match x with
            | inl reply => inr (inl reply)
            | inr (file_content, images) =>
                if negb (truthy (strip file_content))
                   && negb (0 <? length images)%nat
                then inr (inl (error
                  (lit "No text or image could be extracted from the file")
                  400))
                else inr (inr (file_content, images))
            end), [PathExists path; PathGetsize path; OpenRead path].
    split; [|constructor; exact Epdf].
    rewrite <- !app_assoc; simpl.
    destruct x as [reply | [fc imgs]]; [reflexivity|].
    destruct (negb (truthy (strip fc)) && negb (0 <? length imgs)%nat);
      reflexivity.
Qed.

Lemma file_calls_are_file_events (path : pystr) (tr : list Event) :
  file_calls path tr -> forall ev, In ev tr -> is_file_event ev = true.
Proof.
  intros H ev Hin; destruct H; simpl in Hin;
    repeat (destruct Hin as [<- | Hin]; [reflexivity|]); contradiction.
Qed.

Lemma chat_generate_run (p : pystr) (images : list pystr) (w : W)
    (t : list Event) :
  let call := requests_post OLLAMA_URL (payload p images) (Some 180%Z) w in
  chat_generate p images w t
  = (reply_of_post (fst call), snd call,
     t ++ [HttpPost OLLAMA_URL (payload p images) (Some 180%Z)]).
Proof.
  unfold chat_generate, raise_for_status, reply_of_post, dict_get.
  unfold_monad. simpl.
  destruct (requests_post OLLAMA_URL (payload p images) (Some 180%Z) w)
    as [[e | response] w']; simpl.
  - destruct e; reflexivity.
  - destruct ((400 <=? status_code response)
              && (status_code response <? 600))%Z; [reflexivity|].
    destruct (json_body response) as [e | data]; [destruct e; reflexivity|].
    destruct data; reflexivity.
Qed.

(** [chat_answer] first makes the calls of its content, without changing
    the world; then it either replies at once or goes on to the generation
    call with the composed and cut prompt. *)
Lemma chat_answer_run (request : ChatRequest) (w : W) (t : list Event) :
  exists tr,
    content_calls request tr
    /\ ((exists res, chat_answer request w t = (res, w, t ++ tr))
        \/ (exists file_content images,
              chat_answer request w t
              = chat_generate
                  (truncate_prompt
                     (construct_prompt file_content images
                        (or_empty (prompt request))))
                  images w (t ++ tr))).
Proof.
  unfold chat_answer, content_calls, has_manual_text.
  destruct (opt_truthy (manual_text request)
            && truthy (strip (or_empty (manual_text request)))).
  - exists []. split; [reflexivity|]. rewrite app_nil_r.
    unfold bind, ret; cbn beta iota.
    destruct (negb _ && negb _ && negb _); [left | right]; eauto.
  - destruct (opt_truthy (file_id request)).
    + destruct (chat_file_run (or_empty (file_id request)) w t)
        as (res & tr & E & Hcalls).
      exists tr. split; [exact Hcalls|].
      unfold bind, ret. rewrite E.
      destruct res as [e | [reply | [fc imgs]]]; [left; eauto | left; eauto |].
      destruct (negb _ && negb _ && negb _); [left | right]; eauto.
    + exists []. split; [reflexivity|]. rewrite app_nil_r.
      unfold bind, ret; cbn beta iota.
      destruct (negb _ && negb _ && negb _); [left | right]; eauto.
Qed.

(** [chat] probes the container, then the model, then answers. *)
Lemma chat_run (request : ChatRequest) (w : W) :
  run (chat request) w
  = if negb (service_running w)
    then (ServiceUnavailable, w, [Subprocess docker_ps_names])
    else if negb (model_available w)
    then (ModelNotReady, w, [Subprocess docker_ps_names; HttpGet tags_url])
    else finish (chat_answer request w
                   [Subprocess docker_ps_names; HttpGet tags_url]).
Proof.
  unfold run, chat. unfold bind at 1. rewrite is_ollama_running_eq.
  destruct (service_running w); simpl; [|reflexivity].
  unfold bind at 1. rewrite is_model_available_eq.
  destruct (model_available w); reflexivity.
Qed.

End Blocks.

(** ** The readiness checks *)

Section Readiness.

Context {W : Type} {RT : Runtime W}.

Lemma chat_answer_extends (request : ChatRequest) (w : W) (t : list Event) :
  exists tr, calls_of (finish (chat_answer request w t)) = t ++ tr.
Proof.
  destruct (chat_answer_run request w t)
    as (tr & _ & [(res & E) | (fc & imgs & E)]); rewrite E.
  - exists tr. destruct res; reflexivity.
  - rewrite chat_generate_run. cbv zeta.
    eexists (tr ++ [_]). rewrite app_assoc.
    destruct (reply_of_post _); reflexivity.
Qed.

(** C7. When the service-running check reports false, [chat] replies
    ServiceUnavailable after that single probe: the model is not asked for
    and no generation call is made. When it reports true and the model check
    reports false, [chat] replies ModelNotReady after exactly these two
    probes. When both report true the two probes are still the first two
    calls, in that order. *)
Theorem chat_checks_service_then_model (request : ChatRequest) (w : W) :
  (service_running w = false ->
   run (chat request) w
   = (ServiceUnavailable, w, [Subprocess docker_ps_names]))
  /\ (service_running w = true -> model_available w = false ->
      run (chat request) w
      = (ModelNotReady, w, [Subprocess docker_ps_names; HttpGet tags_url]))
  /\ (service_running w = true -> model_available w = true ->
      exists rest,
        calls_of (run (chat request) w)
        = Subprocess docker_ps_names :: HttpGet tags_url :: rest).
Proof.
  rewrite chat_run. repeat split.
  - intros ->. reflexivity.
  - intros -> ->. reflexivity.
  - intros -> ->. simpl negb. cbv iota.
    destruct (chat_answer_extends request w
                [Subprocess docker_ps_names; HttpGet tags_url]) as [tr ->].
    exists tr. reflexivity.
Qed.

(** C8, as the code has it. A request with no prompt (or a blank one), no
    file id and no manual text gets NoContentProvided once the service and
    the model checks have both passed. *)
Theorem chat_no_content (request : ChatRequest) (w : W) :
  service_running w = true ->
  model_available w = true ->
  has_manual_text request = false ->
  opt_truthy (file_id request) = false ->
  truthy (strip (or_empty (prompt request))) = false ->
  run (chat request) w
  = (NoContentProvided, w, [Subprocess docker_ps_names; HttpGet tags_url]).
Proof.
  intros Hrun Hmodel Hmanual Hfile Hprompt.
  rewrite chat_run, Hrun, Hmodel. simpl negb. cbv iota.
  unfold chat_answer. unfold has_manual_text in Hmanual.
  rewrite Hmanual, Hfile, Hprompt. reflexivity.
Qed.

End Readiness.

(** ** The content of a request *)

Ltac differs :=
  let H := fresh "H" in intro H; vm_compute in H; discriminate H.

Section Content.

Context {W : Type} {RT : Runtime W}.

Lemma chat_answer_manual (request : ChatRequest) (mt : pystr) (w : W)
    (t : list Event) :
  manual_text request = Some mt ->
  truthy (strip mt) = true ->
  chat_answer request w t
  = chat_generate
      (truncate_prompt (construct_prompt mt [] (or_empty (prompt request))))
      [] w t.
Proof.
  intros Hmt Hstrip. unfold chat_answer. rewrite Hmt. simpl.
  rewrite (strip_truthy_nonempty mt Hstrip), Hstrip. cbn [andb].
  unfold bind, ret. cbn beta iota. rewrite Hstrip. reflexivity.
Qed.

(** C6. When the manual text is not blank, [chat] never touches a file,
    whatever file id the request carries; once the readiness checks have
    passed its only further call is the generation call, whose prompt is the
    template built around the manual text, unchanged, and then cut. *)
Theorem chat_manual_text_wins (request : ChatRequest) (mt : pystr) (w : W) :
  manual_text request = Some mt ->
  truthy (strip mt) = true ->
  let p := or_empty (prompt request) in
  let template :=
    lit "The user has uploaded a document. Document content:" ++ [LF]
    ++ mt ++ [LF; LF]
    ++ (if truthy (strip p) then lit "User message: " ++ p
        else lit "Please analyze this document.") in
  (forall ev, In ev (calls_of (run (chat request) w)) ->
              is_file_event ev = false)
  /\ (service_running w = true -> model_available w = true ->
      calls_of (run (chat request) w)
      = [Subprocess docker_ps_names; HttpGet tags_url;
         HttpPost OLLAMA_URL (payload (truncate_prompt template) [])
           (Some 180%Z)]).
Proof.
  intros Hmt Hstrip p template.
  assert (Htpl : construct_prompt mt [] p = template).
  { unfold construct_prompt, template. rewrite Hstrip.
    destruct (truthy (strip p)); reflexivity. }
  assert (Hcalls : service_running w = true -> model_available w = true ->
      calls_of (run (chat request) w)
      = [Subprocess docker_ps_names; HttpGet tags_url;
         HttpPost OLLAMA_URL (payload (truncate_prompt template) [])
           (Some 180%Z)]).
  { intros Hrun Hmodel. rewrite chat_run, Hrun, Hmodel. simpl negb. cbv iota.
    rewrite (chat_answer_manual request w _ Hmt Hstrip), chat_generate_run.
    fold p. rewrite Htpl. cbv zeta.
    destruct (reply_of_post _); reflexivity. }
  split; [|exact Hcalls].
  intros ev Hin.
  destruct (service_running w) eqn:Hrun.
  - destruct (model_available w) eqn:Hmodel.
    + rewrite Hcalls in Hin by reflexivity. simpl in Hin.
      repeat (destruct Hin as [<- | Hin]; [reflexivity|]). contradiction.
    + rewrite chat_run, Hrun, Hmodel in Hin. simpl in Hin.
      repeat (destruct Hin as [<- | Hin]; [reflexivity|]). contradiction.
  - rewrite chat_run, Hrun in Hin. simpl in Hin.
    repeat (destruct Hin as [<- | Hin]; [reflexivity|]). contradiction.
Qed.

(** The reply after the generation call is never one of the 4xx errors. *)
Lemma reply_of_post_not_400 (r : exn + HttpResponse) (msg : pystr) :
  finish_reply r <> error msg 400.
Proof.
  unfold finish_reply, reply_of_post.
  repeat (break_match; try discriminate).
Qed.

Lemma chat_file_too_large (fid : pystr) (w : W) (t : list Event) (n : Z) :
  let path := path_join UPLOAD_DIR fid in
  path_exists path w = true ->
  path_getsize path w = inr n ->
  (n > MAX_FILE_SIZE)%Z ->
  chat_file fid w t
  = (inr (inl FileTooLarge), w, t ++ [PathExists path; PathGetsize path]).
Proof.
  intros path Hex Hsize Hn. unfold chat_file. fold path.
  unfold bind at 1. unfold query at 1. rewrite Hex. cbn [negb].
  unfold bind at 1. unfold query at 1. rewrite Hsize.
  destruct (Z.gtb_spec n MAX_FILE_SIZE); [|lia].
  unfold ret. rewrite <- app_assoc. reflexivity.
Qed.

(** Below the guard the file branch goes on to one of its two readers. *)
Lemma chat_file_admitted (fid : pystr) (w : W) (t : list Event) (n : Z) :
  let path := path_join UPLOAD_DIR fid in
  path_exists path w = true ->
  path_getsize path w = inr n ->
  (n <= MAX_FILE_SIZE)%Z ->
  chat_file fid w t
  = (r <- (if endswith (lower unicode_lower path) (lit ".pdf")
           then chat_pdf path else chat_text path) ;;
     match r with
     | inl reply => ret (inl reply)
     | inr (file_content, images) =>
         if negb (truthy (strip file_content))
            && negb (0 <? length images)%nat
         then ret (inl (error
                (lit "No text or image could be extracted from the file")
                400))
         else ret (inr (file_content, images))
     end) w (t ++ [PathExists path; PathGetsize path]).
Proof.
  intros path Hex Hsize Hn. unfold chat_file. fold path.
  unfold bind at 1. unfold query at 1. rewrite Hex. cbn [negb].
  unfold bind at 1. unfold query at 1. rewrite Hsize.
  destruct (Z.gtb_spec n MAX_FILE_SIZE); [lia|].
  rewrite <- app_assoc. reflexivity.
Qed.

Lemma chat_answer_file (request : ChatRequest) (fid : pystr) (w : W)
    (t : list Event) :
  has_manual_text request = false ->
  file_id request = Some fid ->
  truthy fid = true ->
  chat_answer request w t
  = (r <- chat_file fid ;;
     match r with
     | inl reply => ret reply
     | inr (file_content, images) =>
         if negb (truthy (strip file_content))
            && negb (0 <? length images)%nat
            && negb (truthy (strip (or_empty (prompt request))))
         then ret (error (lit "No prompt, file, or manual text provided.")
                         400)
         else chat_generate
                (truncate_prompt
                   (construct_prompt file_content images
                      (or_empty (prompt request))))
                images
     end) w t.
Proof.
  intros Hmanual Hfid Htruthy. unfold chat_answer.
  unfold has_manual_text in Hmanual. rewrite Hmanual, Hfid. simpl.
  rewrite Htruthy. reflexivity.
Qed.

(** A request whose file passes the size guard: some reader is called next,
    and the reply is not the one of the guard. *)
Lemma chat_admitted_run (request : ChatRequest) (fid : pystr) (w : W)
    (n : Z) :
  service_running w = true ->
  model_available w = true ->
  has_manual_text request = false ->
  file_id request = Some fid ->
  truthy fid = true ->
  let path := path_join UPLOAD_DIR fid in
  path_exists path w = true ->
  path_getsize path w = inr n ->
  (n <= MAX_FILE_SIZE)%Z ->
  exists reply w' attempt rest,
    run (chat request) w
    = (reply, w',
       [Subprocess docker_ps_names; HttpGet tags_url;
        PathExists path; PathGetsize path] ++ attempt :: rest)
    /\ reply <> FileTooLarge
    /\ (attempt = PdfOpen path
           /\ endswith (lower unicode_lower path) (lit ".pdf") = true
        \/ attempt = OpenRead path
           /\ endswith (lower unicode_lower path) (lit ".pdf") = false).
Proof.
  intros Hrun Hmodel Hmanual Hfid Htruthy path Hex Hsize Hn.
  rewrite chat_run, Hrun, Hmodel. simpl negb. cbv iota.
  rewrite (chat_answer_file request w _ Hmanual Hfid Htruthy).
  unfold bind at 1.
  rewrite (chat_file_admitted fid w _ Hex Hsize Hn). fold path.
  unfold bind at 1.
  set (t0 := [Subprocess docker_ps_names; HttpGet tags_url]
             ++ [PathExists path; PathGetsize path]).
  assert (Hbranch : exists x attempt label,
    (if endswith (lower unicode_lower path) (lit ".pdf")
     then chat_pdf path else chat_text path) w t0
    = (inr x, w, t0 ++ [attempt])
    /\ (attempt = PdfOpen path
           /\ endswith (lower unicode_lower path) (lit ".pdf") = true
        \/ attempt = OpenRead path
           /\ endswith (lower unicode_lower path) (lit ".pdf") = false)
    /\ (label = lit "Failed to process PDF: "
        \/ label = lit "Failed to read file: ")
    /\ extraction_outcome label x).
  { destruct (endswith (lower unicode_lower path) (lit ".pdf")).
    - destruct (chat_pdf_run path w t0) as (x & E & Hx).
      exists x, (PdfOpen path), (lit "Failed to process PDF: "). auto.
    - destruct (chat_text_run path w t0) as (x & E & Hx).
      exists x, (OpenRead path), (lit "Failed to read file: "). auto. }
  destruct Hbranch as (x & attempt & label & -> & Hattempt & Hlabel & Hx).
  subst t0.
  destruct Hx as [(fc & imgs & ->) | (e & ->)].
  - destruct (negb (truthy (strip fc)) && negb (0 <? length imgs)%nat).
    + unfold ret. cbn beta iota. unfold finish.
      eexists _, _, attempt, []. split; [reflexivity|].
      split; [differs | exact Hattempt].
    + unfold ret. cbn beta iota.
      destruct (negb (truthy (strip fc)) && negb (0 <? length imgs)%nat
                && negb (truthy (strip (or_empty (prompt request))))).
      * unfold finish.
        eexists _, _, attempt, []. split; [reflexivity|].
        split; [differs | exact Hattempt].
      * rewrite chat_generate_run. cbv zeta.
        pose proof (@reply_of_post_not_400
          (fst (requests_post OLLAMA_URL
                  (payload (truncate_prompt
                     (construct_prompt fc imgs
                        (or_empty (prompt request)))) imgs)
                  (Some 180%Z) w)) (lit "File too large")) as Hne.
        unfold finish_reply in Hne. unfold finish.
        destruct (reply_of_post _);
          (eexists _, _, attempt, [_]; split;
           [rewrite <- app_assoc; reflexivity | split; [exact Hne | exact Hattempt]]).
  - unfold ret. cbn beta iota. unfold finish.
    eexists _, _, attempt, []. split; [reflexivity|].
    split; [destruct Hlabel as [-> | ->]; differs | exact Hattempt].
Qed.

(** C5, as the code has it. For a request that reaches the file branch, a
    stored file larger than 10 MiB is refused with FileTooLarge right after
    its size is read, before any attempt to open it. A file of at most
    10 MiB, that size included, passes the guard: the next call opens the
    file, as a PDF or as text, and the reply is not FileTooLarge. *)
Theorem chat_size_guard (request : ChatRequest) (fid : pystr) (w : W)
    (n : Z) :
  service_running w = true ->
  model_available w = true ->
  has_manual_text request = false ->
  file_id request = Some fid ->
  truthy fid = true ->
  let path := path_join UPLOAD_DIR fid in
  path_exists path w = true ->
  path_getsize path w = inr n ->
  ((n > 10 * 1024 * 1024)%Z ->
   run (chat request) w
   = (FileTooLarge, w,
      [Subprocess docker_ps_names; HttpGet tags_url;
       PathExists path; PathGetsize path]))
  /\ ((n <= 10 * 1024 * 1024)%Z ->
      reply_of (run (chat request) w) <> FileTooLarge
      /\ exists attempt rest,
           calls_of (run (chat request) w)
           = [Subprocess docker_ps_names; HttpGet tags_url;
              PathExists path; PathGetsize path] ++ attempt :: rest
           /\ (attempt = PdfOpen path \/ attempt = OpenRead path)).
Proof.
  intros Hrun Hmodel Hmanual Hfid Htruthy path Hex Hsize.
  split; intros Hn.
  - rewrite chat_run, Hrun, Hmodel. simpl negb. cbv iota.
    rewrite (chat_answer_file request w _ Hmanual Hfid Htruthy).
    unfold bind.
    rewrite (chat_file_too_large fid w _ Hex Hsize Hn). reflexivity.
  - destruct (chat_admitted_run request w Hrun Hmodel Hmanual Hfid Htruthy
                Hex Hsize Hn)
      as (reply & w' & attempt & rest & -> & Hne & Hattempt).
    split; [exact Hne|].
    exists attempt, rest. split; [reflexivity | tauto].
Qed.

End Content.

(** ** PDF extraction *)

Section PdfExtraction.

Context {W : Type} {RT : Runtime W}.


Lemma chat_pdf_raster_run (path : pystr) (w : W) (t : list Event)
    (pdf : Pdf) (text : pystr) (page : PdfPage) (others : list PdfPage)
    (png : list Byte.byte) :
  pdfplumber_open path w = inr pdf ->
  extract_pages (pages pdf) [] = inr text ->
  truthy (strip text) = false ->
  pages pdf = page :: others ->
  to_image_png page 300 = inr png ->
  let title := metadata_get (metadata pdf) (lit "Title") in
  chat_pdf path w t
  = (inr (inr (lit "Document metadata title: "
               ++ (if truthy title then title else lit "Unknown"),
               [b64encode png])),
     w, t ++ [PdfOpen path]).
Proof.
  intros Hopen Htext Hstrip Hpages Hpng title.
  unfold chat_pdf, first_page. unfold_monad.
  rewrite Hopen, Htext, Hstrip, Hpages, Hpng. reflexivity.
Qed.

Lemma hint_not_blank (title : pystr) :
  truthy (strip (lit "Document metadata title: " ++ title)) = true.
Proof.
  apply strip_truthy with (c := 68%N); [left; reflexivity | reflexivity].
Qed.

(** What [chat] does with a file that passes the guard and whose reader
    hands over non-blank content. *)
Lemma chat_with_extracted (request : ChatRequest) (fid : pystr) (w : W)
    (n : Z) (reader : Event) (content : pystr) (images : list pystr) :
  service_running w = true ->
  model_available w = true ->
  has_manual_text request = false ->
  file_id request = Some fid ->
  truthy fid = true ->
  let path := path_join UPLOAD_DIR fid in
  path_exists path w = true ->
  path_getsize path w = inr n ->
  (n <= MAX_FILE_SIZE)%Z ->
  (forall t,
     (if endswith (lower unicode_lower path) (lit ".pdf")
      then chat_pdf path else chat_text path) w t
     = (inr (inr (content, images)), w, t ++ [reader])) ->
  truthy (strip content) = true ->
  (forall t, chat_file fid w t
             = (inr (inr (content, images)), w,
                t ++ [PathExists path; PathGetsize path; reader]))
  /\ calls_of (run (chat request) w)
     = [Subprocess docker_ps_names; HttpGet tags_url;
        PathExists path; PathGetsize path; reader;
        HttpPost OLLAMA_URL
          (payload
             (truncate_prompt
                (construct_prompt content images
                   (or_empty (prompt request))))
             images)
          (Some 180%Z)].
Proof.
  intros Hrun Hmodel Hmanual Hfid Htruthy path Hex Hsize Hn Hreader Hstrip.
  assert (Hfile : forall t, chat_file fid w t
             = (inr (inr (content, images)), w,
                t ++ [PathExists path; PathGetsize path; reader])).
  { intros t. rewrite (chat_file_admitted fid w t Hex Hsize Hn). fold path.
    unfold bind. rewrite Hreader. rewrite Hstrip. cbn [negb andb].
    unfold ret. rewrite <- app_assoc. reflexivity. }
  split; [exact Hfile|].
  rewrite chat_run, Hrun, Hmodel. simpl negb. cbv iota.
  rewrite (chat_answer_file request w _ Hmanual Hfid Htruthy).
  unfold bind. rewrite Hfile. rewrite Hstrip. cbn [negb andb].
  rewrite chat_generate_run. cbv zeta. unfold calls_of, finish.
  destruct (reply_of_post _); reflexivity.
Qed.


(** C9, as the code has it. A stored file whose lowered path ends in
    [.pdf], smaller than the cap, that opens as a PDF whose pages give only
    a blank text, and whose first page renders at 300 dpi: the file branch
    hands over exactly one
    image, the base64 of that PNG, together with the hint
    [Document metadata title: T], where [T] is the title of the metadata or
    [Unknown]. The hint is not blank, and the generation call carries both
    the image and the document template around the hint. *)
Theorem chat_pdf_raster_fallback (request : ChatRequest) (fid : pystr)
    (w : W) (n : Z) (pdf : Pdf) (text : pystr) (page : PdfPage)
    (others : list PdfPage) (png : list Byte.byte) :
  service_running w = true ->
  model_available w = true ->
  has_manual_text request = false ->
  file_id request = Some fid ->
  truthy fid = true ->
  let path := path_join UPLOAD_DIR fid in
  endswith (lower unicode_lower path) (lit ".pdf") = true ->
  path_exists path w = true ->
  path_getsize path w = inr n ->
  (n < 10 * 1024 * 1024)%Z ->
  pdfplumber_open path w = inr pdf ->
  extract_pages (pages pdf) [] = inr text ->
  truthy (strip text) = false ->
  pages pdf = page :: others ->
  to_image_png page 300 = inr png ->
  let title := metadata_get (metadata pdf) (lit "Title") in
  let hint := lit "Document metadata title: "
              ++ (if truthy title then title else lit "Unknown") in
  let image := b64encode png in
  (forall t, chat_file fid w t
             = (inr (inr (hint, [image])), w,
                t ++ [PathExists path; PathGetsize path; PdfOpen path]))
  /\ truthy (strip hint) = true
  /\ calls_of (run (chat request) w)
     = [Subprocess docker_ps_names; HttpGet tags_url;
        PathExists path; PathGetsize path; PdfOpen path;
        HttpPost OLLAMA_URL
          (payload
             (truncate_prompt
                (lit "The user has uploaded a document. Document content:"
                 ++ [LF] ++ hint ++ [LF; LF]
                 ++ (if truthy (strip (or_empty (prompt request)))
                     then lit "User message: " ++ or_empty (prompt request)
                     else lit "Please analyze this document.")))
             [image])
          (Some 180%Z)].
Proof.
  intros Hrun Hmodel Hmanual Hfid Htruthy path Hpdf Hex Hsize Hn Hopen Htext
    Hstrip Hpages Hpng title hint image.
  assert (Hle : (n <= MAX_FILE_SIZE)%Z) by (unfold MAX_FILE_SIZE; lia).
  assert (Hhint : truthy (strip hint) = true) by apply hint_not_blank.
  destruct (@chat_with_extracted request fid w n (PdfOpen path) hint [image]
              Hrun Hmodel Hmanual Hfid Htruthy Hex Hsize Hle) as [Hfile Hcalls].
  - intros t. fold path. rewrite Hpdf.
    exact (chat_pdf_raster_run path w t Hopen Htext Hstrip Hpages Hpng).
  - exact Hhint.
  - repeat split; [exact Hfile | exact Hhint |].
    rewrite Hcalls. unfold construct_prompt. rewrite Hhint.
    destruct (truthy (strip (or_empty (prompt request)))); reflexivity.
Qed.

(** When the first page is missing or does not render, the same request is
    answered with the extraction failure instead. *)
Lemma chat_pdf_raster_failure (path : pystr) (w : W) (t : list Event)
    (pdf : Pdf) (text : pystr) (e : exn) :
  pdfplumber_open path w = inr pdf ->
  extract_pages (pages pdf) [] = inr text ->
  truthy (strip text) = false ->
  match first_page pdf with
  | inl e' => e' = e
  | inr page => to_image_png page 300 = inl e
  end ->
  chat_pdf path w t
  = (inr (inl (error (lit "Failed to process PDF: " ++ str_of_exn e) 400)),
     w, t ++ [PdfOpen path]).
Proof.
  intros Hopen Htext Hstrip Hfail. unfold chat_pdf. unfold_monad.
  rewrite Hopen, Htext, Hstrip.
  destruct (first_page pdf) as [e' | page]; [subst; reflexivity|].
  rewrite Hfail. reflexivity.
Qed.

End PdfExtraction.

(** ** The generation call *)

Section Generation.

Context {W : Type} {RT : Runtime W}.

Lemma content_calls_no_post (request : ChatRequest) (tr : list Event) :
  content_calls request tr ->
  forall ev, In ev tr -> is_generate_call ev = false.
Proof.
  unfold content_calls. intros H ev Hin.
  destruct (has_manual_text request); [subst; contradiction|].
  destruct (opt_truthy (file_id request)); [|subst; contradiction].
  pose proof (file_calls_are_file_events H ev Hin) as Hfile.
  destruct ev; simpl in *; congruence.
Qed.

(** Every run of [chat] either makes no generation call and leaves the world
    as it is, or ends with the one generation call, whose prompt is a
    composed template after the cut; the reply is then built from the outcome
    of that call. *)
Lemma chat_run_shape (request : ChatRequest) (w : W) :
  (exists reply calls,
      run (chat request) w = (reply, w, calls)
      /\ forall ev, In ev calls -> is_generate_call ev = false)
  \/ (exists file_content images pre,
        let p := truncate_prompt
                   (construct_prompt file_content images
                      (or_empty (prompt request))) in
        let call := requests_post OLLAMA_URL (payload p images)
                      (Some 180%Z) w in
        run (chat request) w
        = (finish_reply (fst call), snd call,
           pre ++ [HttpPost OLLAMA_URL (payload p images) (Some 180%Z)])
        /\ forall ev, In ev pre -> is_generate_call ev = false).
Proof.
  rewrite chat_run.
  destruct (service_running w); simpl negb; cbv iota.
  2:{ left. eexists _, _. split; [reflexivity|].
      intros ev [<- | []]; reflexivity. }
  destruct (model_available w); simpl negb; cbv iota.
  2:{ left. eexists _, _. split; [reflexivity|].
      intros ev [<- | [<- | []]]; reflexivity. }
  destruct (chat_answer_run request w
              [Subprocess docker_ps_names; HttpGet tags_url])
    as (tr & Hcalls & [(res & E) | (fc & imgs & E)]); rewrite E.
  - left. exists (match res with inr r => r | inl e => Unhandled e end).
    eexists. split; [destruct res; reflexivity|].
    intros ev Hin. apply in_app_or in Hin. destruct Hin as [Hin | Hin].
    + destruct Hin as [<- | [<- | []]]; reflexivity.
    + exact (@content_calls_no_post request tr Hcalls ev Hin).
  - right. exists fc, imgs.
    exists ([Subprocess docker_ps_names; HttpGet tags_url] ++ tr).
    cbv zeta. rewrite chat_generate_run. cbv zeta.
    split.
    + unfold finish, finish_reply. destruct (reply_of_post _); reflexivity.
    + intros ev Hin. apply in_app_or in Hin. destruct Hin as [Hin | Hin].
      * destruct Hin as [<- | [<- | []]]; reflexivity.
      * exact (@content_calls_no_post request tr Hcalls ev Hin).
Qed.

(** C2, as the code has it. Every generation call that [chat] makes carries
    the composed template after the cut. That prompt is at most 4022
    characters long: a template of at most 4000 characters goes unchanged,
    a longer one becomes its first 4000 characters followed by the
    22-character marker. *)
Theorem chat_prompt_bound (request : ChatRequest) (w : W) (url : pystr)
    (body : json) (timeout : option Z) :
  In (HttpPost url body timeout) (calls_of (run (chat request) w)) ->
  exists file_content images,
    let template := construct_prompt file_content images
                      (or_empty (prompt request)) in
    url = OLLAMA_URL
    /\ body = payload (truncate_prompt template) images
    /\ length (truncate_prompt template) <= 4022
    /\ (length template <= 4000 -> truncate_prompt template = template)
    /\ (4000 < length template ->
        truncate_prompt template
        = firstn 4000 template ++ lit "... [Prompt truncated]"
        /\ length (truncate_prompt template) = 4022).
Proof.
  intros Hin.
  destruct (chat_run_shape request w)
    as [(reply & calls & E & Hno) | (fc & imgs & pre & E & Hno)].
  - rewrite E in Hin. apply Hno in Hin. discriminate Hin.
  - cbv zeta in E. rewrite E in Hin. unfold calls_of in Hin. simpl snd in Hin.
    apply in_app_or in Hin. destruct Hin as [Hin | [Heq | []]].
    + apply Hno in Hin. discriminate Hin.
    + inversion Heq; subst. exists fc, imgs. cbv zeta.
      split; [reflexivity|]. split; [reflexivity|].
      split; [exact (truncate_prompt_bound _)|].
      split; [exact (@truncate_prompt_short _)|].
      exact (@truncate_prompt_long _).
Qed.

(** C10, as the code has it. When the generation call answers with a 2xx
    status and a JSON object, [chat] replies with the value of its
    [response] field, and with the empty string when the object has no such
    field. *)
Theorem chat_returns_response_field (request : ChatRequest) (w : W)
    (body : json) (resp : HttpResponse) (items : list (pystr * json)) :
  In (HttpPost OLLAMA_URL body (Some 180%Z))
     (calls_of (run (chat request) w)) ->
  fst (requests_post OLLAMA_URL body (Some 180%Z) w) = inr resp ->
  (200 <= status_code resp < 300)%Z ->
  json_body resp = inr (JDict items) ->
  (forall v, dict_lookup items (lit "response") = Some v ->
             reply_of (run (chat request) w)
             = JSONResponse (JDict [(lit "response", v)]) 200)
  /\ (dict_lookup items (lit "response") = None ->
      reply_of (run (chat request) w)
      = JSONResponse (JDict [(lit "response", JStr [])]) 200).
Proof.
  intros Hin Hpost Hstatus Hjson.
  destruct (chat_run_shape request w)
    as [(reply & calls & E & Hno) | (fc & imgs & pre & E & Hno)].
  - rewrite E in Hin. apply Hno in Hin. discriminate Hin.
  - cbv zeta in E. rewrite E in *. unfold calls_of in Hin. simpl snd in Hin.
    apply in_app_or in Hin. destruct Hin as [Hin | [Heq | []]].
    + apply Hno in Hin. discriminate Hin.
    + inversion Heq as [Hbody]. rewrite Hbody, Hpost.
      unfold reply_of, finish_reply, reply_of_post. simpl fst.
      replace ((400 <=? status_code resp) && (status_code resp <? 600))%Z
        with false
        by (symmetry; apply andb_false_iff; left; apply Z.leb_gt; lia).
      rewrite Hjson.
      split; [intros v -> | intros ->]; reflexivity.
Qed.

End Generation.

(** ** Uploads *)

Lemma Forall_firstn_of {A : Type} (P : A -> Prop) (n : nat) (l : list A) :
  Forall P l -> Forall P (firstn n l).
Proof.
  intros H. revert n. induction H; intros [|n]; simpl; auto.
Qed.

Lemma Forall_skipn_of {A : Type} (P : A -> Prop) (n : nat) (l : list A) :
  Forall P l -> Forall P (skipn n l).
Proof.
  intros H. revert n. induction H; intros [|n]; simpl; auto.
Qed.

Lemma hex_char_is_uuid_char (d : N) :
  (d < 16)%N -> uuid_char (hex_char d) = true.
Proof.
  intros H. unfold uuid_char, hex_char.
  destruct (N.ltb_spec d 10).
  - replace ((48 <=? 48 + d)%N) with true by (symmetry; apply N.leb_le; lia).
    replace ((48 + d <=? 57)%N) with true by (symmetry; apply N.leb_le; lia).
    reflexivity.
  - replace ((97 <=? 97 + (d - 10))%N) with true
      by (symmetry; apply N.leb_le; lia).
    replace ((97 + (d - 10) <=? 102)%N) with true
      by (symmetry; apply N.leb_le; lia).
    cbn [andb]. rewrite orb_true_r. reflexivity.
Qed.

Lemma hex_digits_chars (k : nat) (n : N) :
  Forall (fun c => uuid_char c = true) (hex_digits k n).
Proof.
  revert n. induction k as [|k IH]; intros n; simpl; [constructor|].
  apply Forall_app. split; [apply IH|].
  constructor; [|constructor].
  apply hex_char_is_uuid_char. apply N.mod_lt. discriminate.
Qed.

Lemma hex_digits_length (k : nat) (n : N) : length (hex_digits k n) = k.
Proof.
  revert n. induction k as [|k IH]; intros n; simpl; [reflexivity|].
  rewrite length_app, IH. simpl. lia.
Qed.

Lemma uuid_str_chars (i : N) :
  Forall (fun c => uuid_char c = true) (uuid_str i).
Proof.
  unfold uuid_str.
  pose proof (hex_digits_chars 32 i) as H.
  repeat (apply Forall_app; split);
    try (apply Forall_firstn_of); try (apply Forall_skipn_of);
    try exact H; repeat constructor.
Qed.

Lemma uuid_str_length (i : N) : length (uuid_str i) = 36.
Proof.
  unfold uuid_str.
  repeat rewrite ?length_app, ?length_firstn, ?length_skipn,
    ?hex_digits_length.
  reflexivity.
Qed.

(** A printed UUID has no dot and no slash, and no capital or non-ASCII
    character. *)
Lemma uuid_char_plain (c : N) :
  uuid_char c = true ->
  c <> 46%N /\ c <> 47%N /\ forall ul, lower_char ul c = [c].
Proof.
  unfold uuid_char, lower_char. intros H.
  assert (Hc : (48 <= c <= 57 \/ 97 <= c <= 102 \/ c = 45)%N).
  { apply orb_true_iff in H. destruct H as [H | H].
    - apply orb_true_iff in H. destruct H as [H | H];
        apply andb_true_iff in H; destruct H as [H1 H2];
        apply N.leb_le in H1; apply N.leb_le in H2; lia.
    - apply N.eqb_eq in H. lia. }
  assert (Hl : forall ul, (if ((65 <=? c) && (c <=? 90))%N then [(c + 32)%N]
                           else if (c <? 128)%N then [c] else ul c) = [c]).
  { intros ul. destruct (N.leb_spec 65 c); destruct (N.leb_spec c 90);
      destruct (N.ltb_spec c 128); cbn [andb]; try reflexivity; lia. }
  repeat split; try lia; intros; apply Hl.
Qed.

Lemma lower_plain (ul : N -> pystr) (s : pystr) :
  Forall (fun c => lower_char ul c = [c]) s -> lower ul s = s.
Proof.
  unfold lower. induction 1 as [|c s Hc _ IH]; simpl; [reflexivity|].
  rewrite Hc, IH. reflexivity.
Qed.

Lemma upload_path (i : N) :
  path_join UPLOAD_DIR (uuid_str i) = lit "uploads/" ++ uuid_str i.
Proof.
  unfold path_join.
  pose proof (uuid_str_chars i) as Hchars.
  pose proof (uuid_str_length i) as Hlen.
  destruct (uuid_str i) as [|c r]; [discriminate Hlen|].
  inversion Hchars as [|? ? Hc _]; subst.
  apply uuid_char_plain in Hc. destruct Hc as (_ & Hslash & _).
  assert (Hs : startswith (c :: r) (lit "/") = false).
  { change (startswith (c :: r) (lit "/"))
      with (N.eqb 47 c && startswith r []).
    apply andb_false_iff. left. apply N.eqb_neq. congruence. }
  rewrite Hs. reflexivity.
Qed.

(** The path of an upload never ends in [.pdf], in any letter case. *)
Lemma upload_path_not_pdf (ul : N -> pystr) (i : N) :
  endswith (lower ul (path_join UPLOAD_DIR (uuid_str i))) (lit ".pdf")
  = false.
Proof.
  rewrite upload_path.
  assert (Hplain : Forall (fun c => lower_char ul c = [c])
                     (lit "uploads/" ++ uuid_str i)).
  { apply Forall_app. split; [repeat constructor|].
    eapply Forall_impl; [|apply uuid_str_chars].
    intros c Hc. apply uuid_char_plain in Hc. apply Hc. }
  rewrite lower_plain by exact Hplain.
  destruct (endswith (lit "uploads/" ++ uuid_str i) (lit ".pdf")) eqn:E;
    [|reflexivity].
  exfalso. apply endswith_suffix in E. destruct E as [pre E].
  assert (Hdot : In 46%N (lit "uploads/" ++ uuid_str i)).
  { rewrite E. apply in_or_app. right. left. reflexivity. }
  apply in_app_or in Hdot. destruct Hdot as [Hdot | Hdot].
  - simpl in Hdot. repeat (destruct Hdot as [Hdot | Hdot]; [discriminate|]).
    exact Hdot.
  - pose proof (uuid_str_chars i) as Hchars.
    rewrite Forall_forall in Hchars. apply Hchars in Hdot.
    discriminate Hdot.
Qed.

Section Uploads.

Context {W : Type} {RT : Runtime W}.

(** The calls of any run of [chat]: the probes, then the calls of the
    content, then at most the generation call. *)
Lemma chat_run_calls (request : ChatRequest) (w : W) :
  calls_of (run (chat request) w) = [Subprocess docker_ps_names]
  \/ calls_of (run (chat request) w)
     = [Subprocess docker_ps_names; HttpGet tags_url]
  \/ exists tr,
       content_calls request tr
       /\ (calls_of (run (chat request) w)
           = [Subprocess docker_ps_names; HttpGet tags_url] ++ tr
           \/ exists body,
                calls_of (run (chat request) w)
                = [Subprocess docker_ps_names; HttpGet tags_url] ++ tr
                  ++ [HttpPost OLLAMA_URL body (Some 180%Z)]).
Proof.
  rewrite chat_run.
  destruct (service_running w); simpl negb; cbv iota; [|left; reflexivity].
  destruct (model_available w); simpl negb; cbv iota;
    [|right; left; reflexivity].
  right; right.
  destruct (chat_answer_run request w
              [Subprocess docker_ps_names; HttpGet tags_url])
    as (tr & Hcalls & [(res & E) | (fc & imgs & E)]); rewrite E;
    exists tr; (split; [exact Hcalls|]).
  - left. destruct res; reflexivity.
  - right. rewrite chat_generate_run. cbv zeta. eexists.
    unfold calls_of, finish. rewrite <- app_assoc.
    destruct (reply_of_post _); reflexivity.
Qed.

Lemma upload_file_run (file : UploadFile) (w : W) :
  let bs := fst (os_urandom 16 w) in
  let fid := uuid_str (uuid_v4_int bs) in
  let path := path_join UPLOAD_DIR fid in
  run (upload_file file) w
  = if (length bs =? 16)%nat
    then match write_bytes path (file_bytes file) (snd (os_urandom 16 w)) with
         | inr w' =>
             (JSONResponse
                (JDict [(lit "file_id", JStr fid);
                        (lit "filename", json_of_optstr (filename file))])
                200,
              w', [Urandom 16; OpenWrite path (file_bytes file)])
         | inl e =>
             (Unhandled e, snd (os_urandom 16 w),
              [Urandom 16; OpenWrite path (file_bytes file)])
         end
    else (Unhandled (Exception (lit "bytes is not a 16-char string")),
          snd (os_urandom 16 w), [Urandom 16]).
Proof.
  unfold run, upload_file, uuid4_str. unfold_monad.
  destruct (os_urandom 16 w) as [bs w1]. simpl fst. simpl snd.
  destruct (length bs =? 16)%nat; [|reflexivity].
  destruct (write_bytes _ _ w1); reflexivity.
Qed.

(** C3. When [upload_file] is given its 16 random bytes and the write
    succeeds, it stores the bytes at [uploads/<uuid>], where the UUID is
    printed from the bytes drawn during the call, and returns that UUID as
    the file id; it replies with nothing else but an unhandled exception.
    The id has 36 characters and no dot, so the stored name has no
    extension. Whatever the world is like afterwards, a [chat] request with
    such an id never opens a PDF; when the request reaches the file and the
    file passes the size guard, the file is read as text. *)
Theorem upload_then_chat_reads_text (file : UploadFile) (w : W) :
  let fid := uuid_str (uuid_v4_int (fst (os_urandom 16 w))) in
  let path := lit "uploads/" ++ fid in
  let stored :=
    JSONResponse
      (JDict [(lit "file_id", JStr fid);
              (lit "filename", json_of_optstr (filename file))]) 200 in
  (forall w',
     length (fst (os_urandom 16 w)) = 16 ->
     write_bytes path (file_bytes file) (snd (os_urandom 16 w)) = inr w' ->
     run (upload_file file) w
     = (stored, w', [Urandom 16; OpenWrite path (file_bytes file)]))
  /\ ((exists e, reply_of (run (upload_file file) w) = Unhandled e)
      \/ (reply_of (run (upload_file file) w) = stored
          /\ calls_of (run (upload_file file) w)
             = [Urandom 16; OpenWrite path (file_bytes file)]))
  /\ length fid = 36
  /\ ~ In 46%N fid
  /\ forall (w2 : W) (request : ChatRequest),
       file_id request = Some fid ->
       (forall p, ~ In (PdfOpen p) (calls_of (run (chat request) w2)))
       /\ (forall n,
             service_running w2 = true ->
             model_available w2 = true ->
             has_manual_text request = false ->
             path_exists path w2 = true ->
             path_getsize path w2 = inr n ->
             (n <= 10 * 1024 * 1024)%Z ->
             exists rest,
               calls_of (run (chat request) w2)
               = [Subprocess docker_ps_names; HttpGet tags_url;
                  PathExists path; PathGetsize path; OpenRead path]
                 ++ rest).
Proof.
  intros fid path stored.
  assert (Hpath : path_join UPLOAD_DIR fid = path) by apply upload_path.
  assert (Hnot : endswith (lower unicode_lower (path_join UPLOAD_DIR fid))
                   (lit ".pdf") = false) by apply upload_path_not_pdf.
  assert (Hlen : length fid = 36) by apply uuid_str_length.
  assert (Htruthy : truthy fid = true).
  { destruct fid; [discriminate Hlen | reflexivity]. }
  pose proof (upload_file_run file w) as Hup. cbv zeta in Hup.
  fold fid in Hup. rewrite Hpath in Hup.
  split.
  { intros w' H16 Hwrite. rewrite Hup, H16, Hwrite. reflexivity. }
  split.
  { rewrite Hup. destruct (length (fst (os_urandom 16 w)) =? 16)%nat.
    - destruct (write_bytes path (file_bytes file) (snd (os_urandom 16 w))).
      + left. eexists. reflexivity.
      + right. split; reflexivity.
    - left. eexists. reflexivity. }
  split; [exact Hlen|].
  split.
  { intros Hdot. pose proof (uuid_str_chars (uuid_v4_int (fst (os_urandom 16 w))))
      as Hchars.
    rewrite Forall_forall in Hchars. apply Hchars in Hdot. discriminate Hdot. }
  intros w2 request Hfid. split.
  - intros p Hin.
    assert (Hcontent : forall tr, content_calls request tr ->
                                  ~ In (PdfOpen p) tr).
    { intros tr Hc Hp. unfold content_calls in Hc. rewrite Hfid in Hc.
      destruct (has_manual_text request); [subst; contradiction|].
      unfold opt_truthy, or_empty in Hc. rewrite Htruthy in Hc.
      destruct Hc; simpl in Hp;
        repeat (destruct Hp as [Hp | Hp]; [try discriminate Hp|]);
        try contradiction.
      congruence. }
    destruct (chat_run_calls request w2)
      as [E | [E | (tr & Hc & [E | (body & E)])]]; rewrite E in Hin.
    + destruct Hin as [Hin | []]; discriminate Hin.
    + destruct Hin as [Hin | [Hin | []]]; discriminate Hin.
    + apply in_app_or in Hin. destruct Hin as [Hin | Hin].
      * destruct Hin as [Hin | [Hin | []]]; discriminate Hin.
      * exact (Hcontent tr Hc Hin).
    + apply in_app_or in Hin. destruct Hin as [Hin | Hin].
      * destruct Hin as [Hin | [Hin | []]]; discriminate Hin.
      * apply in_app_or in Hin. destruct Hin as [Hin | Hin].
        -- exact (Hcontent tr Hc Hin).
        -- destruct Hin as [Hin | []]; discriminate Hin.
  - intros n Hrun Hmodel Hmanual Hex Hsize Hn.
    rewrite <- Hpath in Hex, Hsize.
    destruct (chat_admitted_run request w2 Hrun Hmodel Hmanual Hfid Htruthy
                Hex Hsize Hn)
      as (reply & w' & attempt & rest & E & _ & [[_ Hpdf] | [-> _]]).
    + rewrite Hnot in Hpdf. discriminate Hpdf.
    + rewrite E, Hpath. exists rest. reflexivity.
Qed.

End Uploads.

(** ** Starting the service *)

Section Start.

Context {W : Type} {RT : Runtime W}.

Lemma start_when_running (w : W) (t : list Event) :
  service_running w = true ->
  start_ollama_container w t
  = (inr false, w, t ++ [Subprocess docker_ps_names]).
Proof.
  intros Hrun. unfold start_ollama_container, bind.
  rewrite is_ollama_running_eq, Hrun. reflexivity.
Qed.

Lemma start_when_stopped (w : W) (t : list Event) :
  service_running w = false ->
  exists w1 t1,
    start_ollama_container w t
    = match subprocess_exec (docker_run_cmd (platform_system w1)) w1 with
      | inr w' =>
          (inr true, w',
           t1 ++ [Subprocess (docker_run_cmd (platform_system w1))])
      | inl e =>
          (inl e, w1,
           t1 ++ [Subprocess (docker_run_cmd (platform_system w1))])
      end.
Proof.
  intros Hrun. unfold start_ollama_container, bind.
  rewrite is_ollama_running_eq, Hrun. cbn [negb].
  destruct (remove_stopped_total w (t ++ [Subprocess docker_ps_names]))
    as (w1 & t1 & ->).
  exists w1, t1.
  unfold subprocess_run, command, ret.
  destruct (subprocess_exec (docker_run_cmd (platform_system w1)) w1);
    reflexivity.
Qed.

(** Already running: nothing is started, and the answer is that of the
    second launch of [docker ps], on the machine as it is by then. *)
Lemma ollama_start_when_running (w : W) :
  service_running w = true ->
  run ollama_start w
  = (started_reply (service_running (later w)), later w,
     [Subprocess docker_ps_names; Subprocess docker_ps_names]).
Proof.
  intros Hrun. unfold run, ollama_start. unfold bind at 1.
  rewrite (start_when_running w [] Hrun).
  unfold bind at 1. unfold bind at 1. unfold next_launch.
  rewrite is_ollama_running_eq. reflexivity.
Qed.

Lemma ollama_start_when_stopped (w : W) :
  service_running w = false ->
  exists w1 t1,
    run ollama_start w
    = match subprocess_exec (docker_run_cmd (platform_system w1)) w1 with
      | inr w' =>
          (started_reply true, w',
           t1 ++ [Subprocess (docker_run_cmd (platform_system w1))])
      | inl e =>
          (Unhandled e, w1,
           t1 ++ [Subprocess (docker_run_cmd (platform_system w1))])
      end.
Proof.
  intros Hrun. unfold run, ollama_start. unfold bind at 1.
  destruct (start_when_stopped w [] Hrun) as (w1 & t1 & ->).
  exists w1, t1.
  destruct (subprocess_exec (docker_run_cmd (platform_system w1)) w1);
    reflexivity.
Qed.

(** C4, as the code has it. When the service is already reported running,
    [ollama_start] starts nothing and answers with what a second launch of
    [docker ps] reports on the machine as it is by then: [started] is true
    exactly when the service is still running after the call. When the
    service is not reported running, the call ends with the [docker run]
    command and, unless that command raises, answers [started: true] without
    looking at what the command did. So the service running after the call
    always gives [started: true]; the converse holds only when the service
    was already running. *)
Theorem ollama_start_reply (w : W) :
  (service_running w = true ->
   run ollama_start w
   = (started_reply (service_running (later w)), later w,
      [Subprocess docker_ps_names; Subprocess docker_ps_names])
   /\ forall b, reply_of (run ollama_start w) = started_reply b ->
        (b = true <->
         service_running (world_of (run ollama_start w)) = true))
  /\ (service_running w = false ->
      exists w1 pre,
        calls_of (run ollama_start w)
        = pre ++ [Subprocess (docker_run_cmd (platform_system w1))]
        /\ match subprocess_exec (docker_run_cmd (platform_system w1)) w1
           with
           | inr w' =>
               reply_of (run ollama_start w) = started_reply true
               /\ world_of (run ollama_start w) = w'
           | inl e => reply_of (run ollama_start w) = Unhandled e
           end)
  /\ (forall b, reply_of (run ollama_start w) = started_reply b ->
                service_running (world_of (run ollama_start w)) = true ->
                b = true).
Proof.
  assert (Hsame : service_running w = true ->
            forall b, reply_of (run ollama_start w) = started_reply b ->
              (b = true <->
               service_running (world_of (run ollama_start w)) = true)).
  { intros Hrun b Hb.
    rewrite (ollama_start_when_running w Hrun) in *.
    cbn in Hb. inversion Hb. cbn. reflexivity. }
  split; [|split].
  - intros Hrun. split; [exact (ollama_start_when_running w Hrun)|].
    exact (Hsame Hrun).
  - intros Hrun.
    destruct (ollama_start_when_stopped w Hrun) as (w1 & t1 & E).
    exists w1, t1. rewrite E.
    destruct (subprocess_exec (docker_run_cmd (platform_system w1)) w1);
      cbn; auto.
  - intros b Hb Hafter. destruct (service_running w) eqn:Hrun.
    + exact (proj2 (Hsame eq_refl b Hb) Hafter).
    + destruct (ollama_start_when_stopped w Hrun) as (w1 & t1 & E).
      rewrite E in Hb.
      destruct (subprocess_exec (docker_run_cmd (platform_system w1)) w1);
        cbn in Hb; inversion Hb; reflexivity.
Qed.

End Start.

(** * Runs on the concrete machine *)

Module Runs.

Import Sim.

(** The string helpers on small inputs. *)
Example strip_both_sides :
  strip (lit "  a b " ++ [LF]) = lit "a b".
Proof. reflexivity. Qed.

Example lower_then_endswith :
  endswith (lower (fun c => [c]) (lit "uploads/Report.PDF")) (lit ".pdf")
  = true.
Proof. reflexivity. Qed.

Example splitlines_crlf :
  splitlines (lit "a" ++ [CR; LF] ++ lit "b" ++ [LF] ++ [LF] ++ lit "c")
  = [lit "a"; lit "b"; []; lit "c"].
Proof. reflexivity. Qed.

Example path_join_relative :
  path_join UPLOAD_DIR (lit "notes") = lit "uploads/notes".
Proof. reflexivity. Qed.

Example path_join_absolute :
  path_join UPLOAD_DIR (lit "/etc/passwd") = lit "/etc/passwd".
Proof. reflexivity. Qed.

Example b64encode_padding :
  b64encode [Byte.x4d; Byte.x61] = lit "TWE=".
Proof. reflexivity. Qed.

(** A plain-text file and no prompt: the composed prompt of the
    specification's end-to-end example. *)
Example chat_hello_world :
  run (chat (request None (Some (lit "notes")) None)) ready
  = (JSONResponse (JDict [(lit "response", JStr (lit "fine"))]) 200,
     ready,
     [Subprocess docker_ps_names; HttpGet tags_url;
      PathExists (lit "uploads/notes"); PathGetsize (lit "uploads/notes");
      OpenRead (lit "uploads/notes");
      HttpPost OLLAMA_URL
        (payload
           (lit "The user has uploaded a document. Document content:"
            ++ [LF] ++ lit "hello world" ++ [LF; LF]
            ++ lit "Please analyze this document.") [])
        (Some 180%Z)]).
Proof. reflexivity. Qed.

(** A PDF without pages has no first page to render. *)
Example chat_empty_pdf :
  reply_of (run (chat (request None (Some (lit "empty.pdf")) None)) ready)
  = error (lit "Failed to process PDF: list index out of range") 400.
Proof. reflexivity. Qed.

(** The start command brings a stopped container up. *)
Example ollama_start_from_stopped :
  reply_of (run ollama_start stopped) = started_reply true
  /\ service_running (world_of (run ollama_start stopped)) = true.
Proof. split; reflexivity. Qed.


(** C9: [uploads/scan.pdf] has one page and no text. *)
Lemma chat_pdf_raster_fallback_witness :
  chat_file (lit "scan.pdf") ready []
  = (inr (inr (lit "Document metadata title: Invoice 7", [lit "iVBO"])),
     ready,
     [PathExists (lit "uploads/scan.pdf");
      PathGetsize (lit "uploads/scan.pdf");
      PdfOpen (lit "uploads/scan.pdf")])
  /\ calls_of (run (chat (request None (Some (lit "scan.pdf")) None)) ready)
     = [Subprocess docker_ps_names; HttpGet tags_url;
        PathExists (lit "uploads/scan.pdf");
        PathGetsize (lit "uploads/scan.pdf");
        PdfOpen (lit "uploads/scan.pdf");
        HttpPost OLLAMA_URL
          (payload
             (lit "The user has uploaded a document. Document content:"
              ++ [LF] ++ lit "Document metadata title: Invoice 7"
              ++ [LF; LF] ++ lit "Please analyze this document.")
             [lit "iVBO"])
          (Some 180%Z)].
Proof.
  assert (H := @chat_pdf_raster_fallback World runtime
       (request None (Some (lit "scan.pdf")) None) (lit "scan.pdf")
       ready 4096
       {| pages := [scanned_page];
          metadata := [(lit "Title", lit "Invoice 7")] |}
       [] scanned_page [] [Byte.x89; Byte.x50; Byte.x4e]
       eq_refl eq_refl eq_refl eq_refl eq_refl eq_refl eq_refl eq_refl
       eq_refl eq_refl eq_refl eq_refl eq_refl eq_refl).
  cbv zeta in H. destruct H as (Hfile & _ & Hcalls).
  split; [exact (Hfile []) | exact Hcalls].
Defined.

(** C6: a manual text next to the id of a stored PDF. *)
Lemma chat_manual_text_wins_witness :
  calls_of (run (chat (request (Some (lit "summarize"))
                         (Some (lit "scan.pdf")) (Some (lit "abc")))) ready)
  = [Subprocess docker_ps_names; HttpGet tags_url;
     HttpPost OLLAMA_URL
       (payload
          (lit "The user has uploaded a document. Document content:"
           ++ [LF] ++ lit "abc" ++ [LF; LF]
           ++ lit "User message: summarize") [])
       (Some 180%Z)].
Proof.
  refine (proj2
    (@chat_manual_text_wins World runtime
       (request (Some (lit "summarize")) (Some (lit "scan.pdf"))
          (Some (lit "abc")))
       (lit "abc") ready _ _) _ _); reflexivity.
Defined.

(** C7: the three states of the service. *)
Lemma chat_checks_service_then_model_witness :
  run (chat (request (Some (lit "hi")) None None)) stopped
  = (ServiceUnavailable, stopped, [Subprocess docker_ps_names])
  /\ run (chat (request (Some (lit "hi")) None None)) no_model
     = (ModelNotReady, no_model,
        [Subprocess docker_ps_names; HttpGet tags_url]).
Proof.
  split.
  - refine (proj1 (@chat_checks_service_then_model World runtime
                     (request (Some (lit "hi")) None None) stopped) _).
    reflexivity.
  - refine (proj1 (proj2 (@chat_checks_service_then_model World runtime
                     (request (Some (lit "hi")) None None) no_model)) _ _);
      reflexivity.
Defined.

(** C8, amended: an empty request in a ready world. *)
Lemma chat_no_content_witness :
  run (chat (request None None None)) ready
  = (NoContentProvided, ready,
     [Subprocess docker_ps_names; HttpGet tags_url]).
Proof.
  refine (@chat_no_content World runtime (request None None None) ready
            _ _ _ _ _); reflexivity.
Defined.

(** C8, as stated, fails: with the container stopped the empty request is
    answered ServiceUnavailable. *)
Lemma chat_no_content_fails_when_stopped :
  prompt (request None None None) = None
  /\ file_id (request None None None) = None
  /\ manual_text (request None None None) = None
  /\ reply_of (run (chat (request None None None)) stopped)
     = ServiceUnavailable
  /\ reply_of (run (chat (request None None None)) stopped)
     <> NoContentProvided.
Proof.
  repeat split; try reflexivity. vm_compute. discriminate.
Qed.

(** C5, amended: the two sides of the guard. *)
Lemma chat_size_guard_witness :
  run (chat (request None (Some (lit "over_cap")) None)) ready
  = (FileTooLarge, ready,
     [Subprocess docker_ps_names; HttpGet tags_url;
      PathExists (lit "uploads/over_cap");
      PathGetsize (lit "uploads/over_cap")])
  /\ reply_of (run (chat (request None (Some (lit "at_cap")) None)) ready)
     <> FileTooLarge.
Proof.
  split.
  - refine (proj1
      (@chat_size_guard World runtime
         (request None (Some (lit "over_cap")) None) (lit "over_cap") ready
         (MAX_FILE_SIZE + 1) _ _ _ _ _ _ _) _); reflexivity.
  - refine (proj1 (proj2
      (@chat_size_guard World runtime
         (request None (Some (lit "at_cap")) None) (lit "at_cap") ready
         MAX_FILE_SIZE _ _ _ _ _ _ _) _)); try reflexivity;
      try discriminate.
Defined.

(** C5, as stated, fails: a file of exactly 10 MiB is at the cap and is
    read and answered. *)
Lemma chat_accepts_file_at_cap :
  path_getsize (lit "uploads/at_cap") ready = inr (10 * 1024 * 1024)%Z
  /\ (10 * 1024 * 1024 >= 10 * 1024 * 1024)%Z
  /\ run (chat (request None (Some (lit "at_cap")) None)) ready
     = (JSONResponse (JDict [(lit "response", JStr (lit "fine"))]) 200,
        ready,
        [Subprocess docker_ps_names; HttpGet tags_url;
         PathExists (lit "uploads/at_cap");
         PathGetsize (lit "uploads/at_cap");
         OpenRead (lit "uploads/at_cap");
         HttpPost OLLAMA_URL
           (payload
              (lit "The user has uploaded a document. Document content:"
               ++ [LF] ++ lit "x" ++ [LF; LF]
               ++ lit "Please analyze this document.") [])
           (Some 180%Z)])
  /\ reply_of (run (chat (request None (Some (lit "at_cap")) None)) ready)
     <> FileTooLarge.
Proof.
  split; [reflexivity|]. split; [discriminate|]. split; [reflexivity|].
  vm_compute. discriminate.
Qed.

(** C2, amended: the one generation call of a run with a long prompt. *)
Lemma chat_prompt_bound_witness :
  exists file_content images,
    let template := construct_prompt file_content images long_prompt in
    OLLAMA_URL = OLLAMA_URL
    /\ payload (truncate_prompt long_prompt) []
       = payload (truncate_prompt template) images
    /\ length (truncate_prompt template) <= 4022
    /\ (length template <= 4000 -> truncate_prompt template = template)
    /\ (4000 < length template ->
        truncate_prompt template
        = firstn 4000 template ++ lit "... [Prompt truncated]"
        /\ length (truncate_prompt template) = 4022).
Proof.
  refine (@chat_prompt_bound World runtime
            (request (Some long_prompt) None None) ready OLLAMA_URL
            (payload (truncate_prompt long_prompt) []) (Some 180%Z) _).
  vm_compute. right. right. left. reflexivity.
Defined.

(** C2, as stated, fails: a prompt of 4001 characters is sent as 4022. *)
Lemma chat_sends_more_than_4000 :
  In (HttpPost OLLAMA_URL (payload (truncate_prompt long_prompt) [])
        (Some 180%Z))
     (calls_of (run (chat (request (Some long_prompt) None None)) ready))
  /\ length (truncate_prompt long_prompt) = 4022
  /\ ~ length (truncate_prompt long_prompt) <= 4000.
Proof.
  split; [vm_compute; right; right; left; reflexivity|].
  assert (E : length (truncate_prompt long_prompt) = 4022)
    by (vm_compute; reflexivity).
  split; [exact E|]. rewrite E. intros H.
  apply Nat.leb_le in H. vm_compute in H. discriminate H.
Qed.

(** C10: the canned answer has a [response] field. *)
Lemma chat_returns_response_field_witness :
  reply_of (run (chat (request (Some (lit "hi")) None None)) ready)
  = JSONResponse (JDict [(lit "response", JStr (lit "fine"))]) 200.
Proof.
  refine (proj1
    (@chat_returns_response_field World runtime
       (request (Some (lit "hi")) None None) ready
       (payload (lit "hi") [])
       {| status_code := 200; http_error_msg := [];
          json_body := inr answer |}
       [(lit "model", JStr MODEL_NAME); (lit "response", JStr (lit "fine"))]
       _ _ _ _) (JStr (lit "fine")) _); try reflexivity;
    try (cbn; lia).
  vm_compute. right. right. left. reflexivity.
Defined.

(** C4, amended: a running container is left alone and reported by the
    second launch, also when it has died in between. *)
Lemma ollama_start_reply_witness :
  run ollama_start ready
  = (started_reply true, ready,
     [Subprocess docker_ps_names; Subprocess docker_ps_names])
  /\ @run World (@ollama_start World Lab.dying_runtime) ready
     = (started_reply false, Lab.stop_container ready,
        [Subprocess docker_ps_names; Subprocess docker_ps_names]).
Proof.
  split.
  - refine (proj1 (proj1 (@ollama_start_reply World runtime ready) _)).
    reflexivity.
  - refine (proj1 (proj1 (@ollama_start_reply World Lab.dying_runtime ready)
                     _)).
    reflexivity.
Defined.

(** C4, as stated, fails: with the docker daemon down the start command
    does nothing, and the answer is still [started: true]. *)
Lemma ollama_start_true_though_not_running :
  reply_of (run ollama_start daemon_down) = started_reply true
  /\ service_running (world_of (run ollama_start daemon_down)) = false
  /\ ~ (true = true <->
        service_running (world_of (run ollama_start daemon_down)) = true).
Proof.
  split; [reflexivity|]. split; [reflexivity|].
  intros [H _]. specialize (H eq_refl). vm_compute in H. discriminate H.
Qed.

(** C3: an upload, then a chat about it in the world the upload left. *)
Lemma upload_then_chat_reads_text_witness :
  reply_of (run (upload_file hello) ready)
  = JSONResponse
      (JDict [(lit "file_id", JStr hello_id);
              (lit "filename", JStr (lit "hello.pdf"))]) 200
  /\ exists rest,
       calls_of (run (chat (request None (Some hello_id) None))
                   (world_of (run (upload_file hello) ready)))
       = [Subprocess docker_ps_names; HttpGet tags_url;
          PathExists (lit "uploads/" ++ hello_id);
          PathGetsize (lit "uploads/" ++ hello_id);
          OpenRead (lit "uploads/" ++ hello_id)] ++ rest.
Proof.
  split; [reflexivity|].
  destruct (@upload_then_chat_reads_text World runtime hello ready)
    as (_ & _ & _ & _ & H).
  refine (proj2 (H (world_of (run (upload_file hello) ready))
                   (request None (Some hello_id) None) _) 2%Z _ _ _ _ _ _);
    try reflexivity; try discriminate.
Defined.

End Runs.

(** * Further properties *)

(** ** Substrings *)

Lemma startswith_iff (s p : pystr) :
  startswith s p = true <-> exists post, s = p ++ post.
Proof.
  revert s. induction p as [|x p IH]; intros s.
  - destruct s; simpl; split; eauto.
  - destruct s as [|y s]; simpl.
    + split; [discriminate | intros [post E]; discriminate E].
    + rewrite andb_true_iff, N.eqb_eq, IH. split.
      * intros [-> [post ->]]. exists post. reflexivity.
      * intros [post E]. inversion E. eauto.
Qed.

Lemma contains_iff (sub s : pystr) :
  contains sub s = true <-> exists pre post, s = pre ++ sub ++ post.
Proof.
  induction s as [|c s IH].
  - change (contains sub []) with (startswith [] sub || false).
    rewrite orb_false_r, startswith_iff. split.
    + intros [post E]. exists [], post. exact E.
    + intros (pre & post & E). exists post.
      destruct pre; [exact E | discriminate E].
  - change (contains sub (c :: s))
      with (startswith (c :: s) sub || contains sub s).
    rewrite orb_true_iff, startswith_iff, IH. split.
    + intros [[post E] | (pre & post & E)].
      * exists [], post. exact E.
      * exists (c :: pre), post. rewrite E. reflexivity.
    + intros (pre & post & E). destruct pre as [|d pre].
      * left. exists post. exact E.
      * right. inversion E. eauto.
Qed.

(** ** The probes and the service handlers *)

Section Probes.

Context {W : Type} {RT : Runtime W}.

(** X1. [is_ollama_running] never raises and leaves the world as it is; it
    answers true exactly when [docker ps] returned an output in which the
    container name occurs somewhere, as a substring. *)
Theorem is_ollama_running_substring (w : W) (t : list Event) :
  exists b,
    is_ollama_running w t = (inr b, w, t ++ [Subprocess docker_ps_names])
    /\ (b = true <->
        exists pre post,
          subprocess_stdout docker_ps_names w
          = inr (pre ++ OLLAMA_CONTAINER_NAME ++ post)).
Proof.
  exists (service_running w). split; [apply is_ollama_running_eq|].
  unfold service_running, is_ollama_running, subprocess_run_capture,
    value_of.
  unfold_monad.
  destruct (subprocess_stdout docker_ps_names w) as [e | out]; cbn.
  - split; [discriminate | intros (pre & post & E); discriminate E].
  - rewrite contains_iff. split.
    + intros (pre & post & ->). exists pre, post. reflexivity.
    + intros (pre & post & E). inversion E. exists pre, post. reflexivity.
Qed.

Lemma any_model_named_dicts (models : list json) :
  Forall (fun m => exists d, m = JDict d) models ->
  exists b,
    any_model_named models = inr b
    /\ (b = true <->
        exists d, In (JDict d) models
                  /\ dict_lookup d (lit "name") = Some (JStr MODEL_NAME)).
Proof.
  induction 1 as [|m models [d ->] _ (b & E & Hb)].
  - exists false. split; [reflexivity|].
    split; [discriminate | intros (d & [] & _)].
  - simpl any_model_named. rewrite E.
    destruct (dict_lookup d (lit "name")) as [v|] eqn:Hname.
    + destruct (json_eq_str v MODEL_NAME) eqn:Hv.
      * exists true. split; [reflexivity|]. split; [|reflexivity].
        intros _. exists d. split; [left; reflexivity|].
        destruct v; try discriminate Hv. simpl in Hv.
        apply eqb_eq in Hv. subst. exact Hname.
      * exists b. split; [reflexivity|]. rewrite Hb. split.
        -- intros (d' & Hin & Hd'). exists d'. split; [right; exact Hin|].
           exact Hd'.
        -- intros (d' & [Heq | Hin] & Hd'); [|eauto].
           inversion Heq; subst. rewrite Hname in Hd'. inversion Hd'; subst.
           vm_compute in Hv. discriminate Hv.
    + exists b. split; [reflexivity|]. rewrite Hb. split.
      * intros (d' & Hin & Hd'). exists d'. split; [right; exact Hin|].
        exact Hd'.
      * intros (d' & [Heq | Hin] & Hd'); [|eauto].
        inversion Heq; subst. rewrite Hname in Hd'. discriminate Hd'.
Qed.

(** X2. When the tags endpoint answers without an error status and with a
    JSON object whose [models] is a list of objects, [is_model_available]
    answers true exactly when one of them has a [name] equal to the
    configured model name, character for character. *)
Theorem model_available_exact_name (w : W) (r : HttpResponse)
    (items : list (pystr * json)) (models : list json) :
  requests_get tags_url w = inr r ->
  (status_code r < 400 \/ 600 <= status_code r)%Z ->
  json_body r = inr (JDict items) ->
  dict_lookup items (lit "models") = Some (JList models) ->
  Forall (fun m => exists d, m = JDict d) models ->
  (model_available w = true <->
   exists d, In (JDict d) models
             /\ dict_lookup d (lit "name") = Some (JStr MODEL_NAME)).
Proof.
  intros Hget Hstatus Hjson Hmodels Hdicts.
  destruct (any_model_named_dicts Hdicts) as (b & E & Hb).
  assert (Hval : model_available w = b).
  { unfold model_available, is_model_available, raise_for_status, value_of.
    unfold_monad. rewrite Hget.
    replace ((400 <=? status_code r) && (status_code r <? 600))%Z with false
      by (symmetry; apply andb_false_iff; destruct Hstatus;
          [left; apply Z.leb_gt | right; apply Z.ltb_ge]; lia).
    rewrite Hjson. unfold dict_get. cbv beta iota. rewrite Hmodels.
    unfold py_iter. cbv beta iota. rewrite E. reflexivity. }
  rewrite Hval. exact Hb.
Qed.

(** X3. [is_model_available] answers false, without raising, when the
    request to the tags endpoint raises, when the status is from 400 to 599,
    when the body is not JSON, when it is not an object, and when the object
    has no [models]. *)
Theorem model_available_degrades (w : W) :
  (forall e, requests_get tags_url w = inl e -> model_available w = false)
  /\ (forall r, requests_get tags_url w = inr r ->
       (400 <= status_code r < 600)%Z \/ (exists e, json_body r = inl e)
       \/ (exists v, json_body r = inr v /\ forall d, v <> JDict d)
       \/ (exists d, json_body r = inr (JDict d)
                     /\ dict_lookup d (lit "models") = None) ->
       model_available w = false).
Proof.
  unfold model_available, is_model_available, raise_for_status, value_of.
  unfold_monad. split.
  - intros e ->. reflexivity.
  - intros r -> H.
    destruct ((400 <=? status_code r) && (status_code r <? 600))%Z eqn:Hs;
      [reflexivity|].
    destruct H as [H | [(e & ->) | [(v & -> & Hv) | (d & -> & Hd)]]].
    + apply andb_false_iff in Hs.
      destruct Hs as [Hs | Hs];
        [apply Z.leb_gt in Hs | apply Z.ltb_ge in Hs]; lia.
    + reflexivity.
    + destruct v; try reflexivity. exfalso. exact (Hv _ eq_refl).
    + unfold dict_get. cbv beta iota. rewrite Hd. reflexivity.
Qed.

(** The loop over the listing: it issues [docker rm] only for ids of lines
    [id:status] whose status is stale. *)
Lemma remove_listed_calls (lines : list pystr) (w : W) (t : list Event) :
  exists r w' ids,
    remove_listed lines w t = (r, w', t ++ map rm_call ids)
    /\ forall id, In id ids ->
         exists line status,
           In line lines /\ split1 58 line = Some (id, status)
           /\ stale_status status = true.
Proof.
  revert w t. induction lines as [|line rest IH]; intros w t.
  - exists (inr tt), w, []. split; [cbn; rewrite app_nil_r; reflexivity|].
    intros id [].
  - cbn [remove_listed]. unfold bind at 1.
    assert (Hskip : exists r w' ids,
      (let (p, t') := ret tt w t in
       let (s, w'0) := p in
       match s with
       | inl e => (inl e, w'0, t')
       | inr a => (fun _ : unit => remove_listed rest) a w'0 t'
       end) = (r, w', t ++ map rm_call ids)
      /\ forall id, In id ids ->
           exists line0 status,
             In line0 (line :: rest) /\ split1 58 line0 = Some (id, status)
             /\ stale_status status = true).
    { unfold ret. destruct (IH w t) as (r & w' & ids & E & Hids).
      exists r, w', ids. split; [exact E|].
      intros id Hin. destruct (Hids id Hin) as (l & st & Hl & Hsp & Hst).
      exists l, st. split; [right; exact Hl | auto]. }
    destruct (truthy line); [|exact Hskip].
    destruct (split1 58 line) as [[container_id status]|] eqn:Hsplit.
    2:{ exists (inl (Exception (lit "not enough values to unpack"))), w, [].
        split; [cbn; rewrite app_nil_r; reflexivity | intros id []]. }
    fold (stale_status status).
    destruct (stale_status status) eqn:Hstale; [|exact Hskip].
    unfold subprocess_run, command.
    destruct (subprocess_exec [lit "docker"; lit "rm"; container_id] w)
      as [e | w1].
    + exists (inl e), w, [container_id]. split; [reflexivity|].
      intros id [<- | []]. exists line, status.
      split; [left; reflexivity | auto].
    + destruct (IH w1 (t ++ [rm_call container_id]))
        as (r & w' & ids & E & Hids).
      exists r, w', (container_id :: ids). split.
      * fold (rm_call container_id). rewrite E, <- app_assoc. reflexivity.
      * intros id [<- | Hin].
        -- exists line, status. split; [left; reflexivity | auto].
        -- destruct (Hids id Hin) as (l & st & Hl & Hsp & Hst).
           exists l, st. split; [right; exact Hl | auto].
Qed.

(** X4. [remove_stopped_ollama_container] never raises. After listing the
    containers it issues nothing but [docker rm] commands, and only for ids
    that the listing shows on a line [id:status] whose status contains
    [Exited], [Created] or [Dead]. *)
Theorem remove_stopped_only_stale (w : W) (t : list Event) :
  exists w' ids,
    remove_stopped_ollama_container w t
    = (inr tt, w', t ++ Subprocess docker_ps_all :: map rm_call ids)
    /\ forall id, In id ids ->
         exists out line status,
           subprocess_stdout docker_ps_all w = inr out
           /\ In line (splitlines (strip out))
           /\ split1 58 line = Some (id, status)
           /\ stale_status status = true.
Proof.
  unfold remove_stopped_ollama_container, subprocess_run_capture.
  unfold try_except, bind, query.
  destruct (subprocess_stdout docker_ps_all w) as [e | out].
  - exists w, []. split; [reflexivity | intros id []].
  - destruct (remove_listed_calls (splitlines (strip out)) w
                (t ++ [Subprocess docker_ps_all]))
      as (r & w' & ids & E & Hids).
    exists w', ids. rewrite E. split.
    + rewrite <- app_assoc. destruct r as [e | []]; reflexivity.
    + intros id Hin. destruct (Hids id Hin) as (l & st & H).
      exists out, l, st. split; [reflexivity | exact H].
Qed.

Lemma split1_some_truthy (line a b : pystr) :
  split1 58 line = Some (a, b) -> truthy line = true.
Proof. destruct line; [discriminate | reflexivity]. Qed.

(** The loop when no [docker rm] raises. *)
Lemma remove_listed_exact (lines : list pystr) (w : W) (t : list Event) :
  (forall id v, exists v',
      subprocess_exec [lit "docker"; lit "rm"; id] v = inr v') ->
  exists r,
    remove_listed lines w t
    = (r, fold_left docker_rm (stale_ids lines) w,
       t ++ map rm_call (stale_ids lines)).
Proof.
  intros Hexec. revert w t. induction lines as [|line rest IH]; intros w t.
  - exists (inr tt). cbn. rewrite app_nil_r. reflexivity.
  - cbn [remove_listed stale_ids]. unfold bind at 1.
    destruct (truthy line).
    2:{ unfold ret. apply IH. }
    destruct (split1 58 line) as [[container_id status]|].
    2:{ eexists. cbn. rewrite app_nil_r. reflexivity. }
    fold (stale_status status).
    destruct (stale_status status).
    2:{ unfold ret. apply IH. }
    unfold subprocess_run, command.
    destruct (Hexec container_id w) as [w1 Hw1].
    cbn [fold_left map]. unfold docker_rm at 2. rewrite Hw1.
    destruct (IH w1 (t ++ [rm_call container_id])) as [r E].
    exists r. fold (rm_call container_id). rewrite E, <- app_assoc.
    reflexivity.
Qed.

Lemma stale_ids_sound (lines : list pystr) (id : pystr) :
  In id (stale_ids lines) ->
  exists line status,
    In line lines /\ split1 58 line = Some (id, status)
    /\ stale_status status = true.
Proof.
  induction lines as [|line rest IH]; cbn [stale_ids]; [intros []|].
  assert (Hrest : In id (stale_ids rest) ->
            exists line0 status,
              In line0 (line :: rest) /\ split1 58 line0 = Some (id, status)
              /\ stale_status status = true).
  { intros H. destruct (IH H) as (l & st & Hl & Hs).
    exists l, st. split; [right; exact Hl | exact Hs]. }
  destruct (truthy line); [|exact Hrest].
  destruct (split1 58 line) as [[container_id status]|] eqn:Hsplit;
    [|intros []].
  destruct (stale_status status) eqn:Hstale; [|exact Hrest].
  intros [<- | H]; [|exact (Hrest H)].
  exists line, status. split; [left; reflexivity | auto].
Qed.

Lemma stale_ids_complete (lines : list pystr) :
  Forall (fun line => truthy line = true -> split1 58 line <> None) lines ->
  forall line id status,
    In line lines -> split1 58 line = Some (id, status) ->
    stale_status status = true -> In id (stale_ids lines).
Proof.
  induction 1 as [|l rest Hl _ IH]; intros line id status Hin Hsplit Hstale;
    [destruct Hin|].
  cbn [stale_ids]. destruct Hin as [-> | Hin].
  - rewrite (split1_some_truthy _ Hsplit), Hsplit, Hstale.
    left. reflexivity.
  - specialize (IH line id status Hin Hsplit Hstale).
    destruct (truthy l) eqn:Ht; [|exact IH].
    destruct (split1 58 l) as [[a b]|]; [|exfalso; exact (Hl eq_refl eq_refl)].
    destruct (stale_status b); [right|]; exact IH.
Qed.

Lemma gpus_only_on_linux (system : pystr) :
  In (lit "--gpus") (docker_run_cmd system) <-> system = lit "Linux".
Proof.
  unfold docker_run_cmd.
  destruct (Py.eqb system (lit "Linux")) eqn:E.
  - apply eqb_eq in E. split; [intros _; exact E|].
    intros _. apply in_or_app. right. left. reflexivity.
  - split.
    + intros H. exfalso. apply in_app_or in H. destruct H as [H | H].
      * simpl in H.
        repeat (destruct H as [H | H]; [vm_compute in H; discriminate H|]).
        exact H.
      * simpl in H. destruct H as [H | H]; [|exact H].
        vm_compute in H. discriminate H.
    + intros ->. vm_compute in E. discriminate E.
Qed.

(** X5. When the service is not reported running and no [docker rm] raises,
    the calls of [ollama_start] are, in order: the probe, the listing of all
    containers, one [docker rm] for each listed container with a stale
    status and for no other, and last [docker run], with [--gpus all] exactly
    when the platform of the machine that the removals left is Linux. It
    does not probe again. *)
Theorem ollama_start_cleans_then_runs (w : W) (out : pystr) :
  service_running w = false ->
  subprocess_stdout docker_ps_all w = inr out ->
  (forall id v, exists v',
      subprocess_exec [lit "docker"; lit "rm"; id] v = inr v') ->
  let lines := splitlines (strip out) in
  let ids := stale_ids lines in
  let w1 := fold_left docker_rm ids w in
  calls_of (run ollama_start w)
  = [Subprocess docker_ps_names; Subprocess docker_ps_all]
    ++ map rm_call ids
    ++ [Subprocess (docker_run_cmd (platform_system w1))]
  /\ (forall id, In id ids ->
        exists line status,
          In line lines /\ split1 58 line = Some (id, status)
          /\ stale_status status = true)
  /\ (Forall (fun line => truthy line = true -> split1 58 line <> None)
             lines ->
      forall line id status,
        In line lines -> split1 58 line = Some (id, status) ->
        stale_status status = true -> In id ids)
  /\ (In (lit "--gpus") (docker_run_cmd (platform_system w1)) <->
      platform_system w1 = lit "Linux").
Proof.
  intros Hrun Hout Hexec lines ids w1.
  split; [|split; [|split]].
  - unfold run, ollama_start, start_ollama_container.
    unfold bind at 1. unfold bind at 1.
    rewrite is_ollama_running_eq, Hrun. cbn [negb].
    unfold bind at 1.
    unfold remove_stopped_ollama_container, subprocess_run_capture.
    unfold try_except. unfold bind at 1. unfold query. rewrite Hout.
    destruct (remove_listed_exact lines w
                (([] ++ [Subprocess docker_ps_names])
                 ++ [Subprocess docker_ps_all]) Hexec) as [r E].
    fold lines. rewrite E. fold ids. fold w1.
    destruct r as [e | []];
      unfold bind, subprocess_run, command, ret;
      destruct (subprocess_exec (docker_run_cmd (platform_system w1)) w1);
      reflexivity.
  - intros id. apply stale_ids_sound.
  - apply stale_ids_complete.
  - apply gpus_only_on_linux.
Qed.

(** X6. [ollama_status] asks for the model only when the container is
    reported running: it answers [docker_running] with the probe and
    [model_available] with the conjunction of the two checks, and the world is
    left as it is. *)
Theorem ollama_status_reply (w : W) :
  run ollama_status w
  = (JSONResponse
       (JDict [(lit "docker_running", JBool (service_running w));
               (lit "model_available",
                JBool (service_running w && model_available w))]) 200,
     w,
     Subprocess docker_ps_names
     :: (if service_running w then [HttpGet tags_url] else [])).
Proof.
  unfold run, ollama_status. unfold bind at 1.
  rewrite is_ollama_running_eq.
  destruct (service_running w); cbn beta iota.
  - unfold bind at 1. rewrite is_model_available_eq. reflexivity.
  - reflexivity.
Qed.

(** X7. [ollama_pull_model] refuses with status 400 and makes no request
    when the container is not reported running. Otherwise it posts the model
    name to the pull endpoint once, with no timeout, and answers [pulled]
    with true exactly when a response came back with a status that is not
    from 400 to 599; it never lets an exception out. *)
Theorem ollama_pull_model_reply (w : W) :
  (service_running w = false ->
   run ollama_pull_model w
   = (error (lit "Ollama container not running") 400, w,
      [Subprocess docker_ps_names]))
  /\ (service_running w = true ->
      run ollama_pull_model w
      = (JSONResponse
           (JDict [(lit "pulled",
                    JBool (post_succeeded
                             (fst (requests_post pull_url pull_body None
                                     w))))]) 200,
         snd (requests_post pull_url pull_body None w),
         [Subprocess docker_ps_names; HttpPost pull_url pull_body None])).
Proof.
  split; intros Hrun; unfold run, ollama_pull_model; unfold bind at 1;
    rewrite is_ollama_running_eq, Hrun; cbn [negb]; [reflexivity|].
  unfold pull_model, requests_post_json, raise_for_status, post_succeeded.
  unfold_monad.
  destruct (requests_post pull_url pull_body None w) as [[e | r] w'];
    [reflexivity|].
  cbn [fst snd].
  destruct ((400 <=? status_code r) && (status_code r <? 600))%Z;
    reflexivity.
Qed.

End Probes.

(** ** More of [chat]: the file branch *)

Section FileBranch.

Context {W : Type} {RT : Runtime W}.

(** A request that reaches a stored file under the guard, whatever its
    reader hands over. *)
Lemma chat_reader_run (request : ChatRequest) (fid : pystr) (w : W) (n : Z)
    (reader : Event) (x : Extracted) :
  service_running w = true ->
  model_available w = true ->
  has_manual_text request = false ->
  file_id request = Some fid ->
  truthy fid = true ->
  let path := path_join UPLOAD_DIR fid in
  path_exists path w = true ->
  path_getsize path w = inr n ->
  (n <= MAX_FILE_SIZE)%Z ->
  (forall t,
     (if endswith (lower unicode_lower path) (lit ".pdf")
      then chat_pdf path else chat_text path) w t
     = (inr x, w, t ++ [reader])) ->
  let base := [Subprocess docker_ps_names; HttpGet tags_url;
               PathExists path; PathGetsize path; reader] in
  run (chat request) w
  = match x with
    | inl reply => (reply, w, base)
    | inr (content, images) =>
        if negb (truthy (strip content)) && negb (0 <? length images)%nat
        then (error
                (lit "No text or image could be extracted from the file")
                400, w, base)
        else finish
               (chat_generate
                  (truncate_prompt
                     (construct_prompt content images
                        (or_empty (prompt request))))
                  images w base)
    end.
Proof.
  intros Hrun Hmodel Hmanual Hfid Htruthy path Hex Hsize Hn Hreader base.
  rewrite chat_run, Hrun, Hmodel. simpl negb. cbv iota.
  rewrite (chat_answer_file request w _ Hmanual Hfid Htruthy).
  unfold bind at 1.
  rewrite (chat_file_admitted fid w _ Hex Hsize Hn). fold path.
  unfold bind at 1. rewrite Hreader. rewrite <- app_assoc.
  change ([Subprocess docker_ps_names; HttpGet tags_url]
          ++ [PathExists path; PathGetsize path] ++ [reader]) with base.
  destruct x as [reply | [content images]]; [reflexivity|].
  destruct (negb (truthy (strip content)) && negb (0 <? length images)%nat)
    eqn:Hblank; [reflexivity|].
  unfold ret. cbn beta iota. rewrite Hblank. reflexivity.
Qed.

(** X8. A request that reaches the file branch with an id whose path does
    not exist is answered FileNotFound (status 404) right after the
    existence test: the size is not read and nothing is opened. *)
Theorem chat_file_missing (request : ChatRequest) (fid : pystr) (w : W) :
  service_running w = true ->
  model_available w = true ->
  has_manual_text request = false ->
  file_id request = Some fid ->
  truthy fid = true ->
  path_exists (path_join UPLOAD_DIR fid) w = false ->
  run (chat request) w
  = (FileNotFound, w,
     [Subprocess docker_ps_names; HttpGet tags_url;
      PathExists (path_join UPLOAD_DIR fid)]).
Proof.
  intros Hrun Hmodel Hmanual Hfid Htruthy Hex.
  rewrite chat_run, Hrun, Hmodel. simpl negb. cbv iota.
  rewrite (chat_answer_file request w _ Hmanual Hfid Htruthy).
  unfold bind at 1. unfold chat_file. unfold bind at 1. unfold query at 1.
  rewrite Hex. reflexivity.
Qed.

(** X9. When the file is not a PDF by its name and reading it raises, the
    request is answered with status 400 and the message
    [Failed to read file: ] followed by the text of the exception; no
    generation call is made. *)
Theorem chat_read_failure (request : ChatRequest) (fid : pystr) (w : W)
    (n : Z) (e : exn) :
  service_running w = true ->
  model_available w = true ->
  has_manual_text request = false ->
  file_id request = Some fid ->
  truthy fid = true ->
  let path := path_join UPLOAD_DIR fid in
  endswith (lower unicode_lower path) (lit ".pdf") = false ->
  path_exists path w = true ->
  path_getsize path w = inr n ->
  (n <= 10 * 1024 * 1024)%Z ->
  read_text path w = inl e ->
  run (chat request) w
  = (error (lit "Failed to read file: " ++ str_of_exn e) 400, w,
     [Subprocess docker_ps_names; HttpGet tags_url;
      PathExists path; PathGetsize path; OpenRead path]).
Proof.
  intros Hrun Hmodel Hmanual Hfid Htruthy path Htext Hex Hsize Hn Hread.
  refine (@chat_reader_run request fid w n (OpenRead path) (inl _)
            Hrun Hmodel Hmanual Hfid Htruthy Hex Hsize Hn _).
  intros t. fold path. rewrite Htext.
  unfold chat_text. unfold_monad. rewrite Hread. reflexivity.
Qed.

(** X10. When the file is a PDF by its name and opening it raises, or a
    page fails to give its text, or the text is blank and the first page is
    missing or does not render, the request is answered with status 400 and
    the message [Failed to process PDF: ] followed by the text of the
    exception; no generation call is made. *)
Theorem chat_pdf_failure (request : ChatRequest) (fid : pystr) (w : W)
    (n : Z) (e : exn) :
  service_running w = true ->
  model_available w = true ->
  has_manual_text request = false ->
  file_id request = Some fid ->
  truthy fid = true ->
  let path := path_join UPLOAD_DIR fid in
  endswith (lower unicode_lower path) (lit ".pdf") = true ->
  path_exists path w = true ->
  path_getsize path w = inr n ->
  (n <= 10 * 1024 * 1024)%Z ->
  (pdfplumber_open path w = inl e
   \/ (exists pdf,
         pdfplumber_open path w = inr pdf
         /\ extract_pages (pages pdf) [] = inl e)
   \/ (exists pdf text,
         pdfplumber_open path w = inr pdf
         /\ extract_pages (pages pdf) [] = inr text
         /\ truthy (strip text) = false
         /\ match first_page pdf with
            | inl e' => e' = e
            | inr page => to_image_png page 300 = inl e
            end)) ->
  run (chat request) w
  = (error (lit "Failed to process PDF: " ++ str_of_exn e) 400, w,
     [Subprocess docker_ps_names; HttpGet tags_url;
      PathExists path; PathGetsize path; PdfOpen path]).
Proof.
  intros Hrun Hmodel Hmanual Hfid Htruthy path Hpdf Hex Hsize Hn Hfail.
  refine (@chat_reader_run request fid w n (PdfOpen path) (inl _)
            Hrun Hmodel Hmanual Hfid Htruthy Hex Hsize Hn _).
  intros t. fold path. rewrite Hpdf.
  destruct Hfail as [Hopen | [(pdf & Hopen & Htext)
                             | (pdf & text & Hopen & Htext & Hblank & Hpage)]].
  - unfold chat_pdf. unfold_monad. rewrite Hopen. reflexivity.
  - unfold chat_pdf. unfold_monad. rewrite Hopen, Htext. reflexivity.
  - apply chat_pdf_raster_failure with (pdf := pdf) (text := text);
      assumption.
Qed.

(** X11. A file that is read as text and holds only white space is refused
    with status 400, [No text or image could be extracted from the file],
    even when the request carries a prompt of its own. *)
Theorem chat_blank_file_rejected (request : ChatRequest) (fid : pystr)
    (w : W) (n : Z) (content : pystr) :
  service_running w = true ->
  model_available w = true ->
  has_manual_text request = false ->
  file_id request = Some fid ->
  truthy fid = true ->
  let path := path_join UPLOAD_DIR fid in
  endswith (lower unicode_lower path) (lit ".pdf") = false ->
  path_exists path w = true ->
  path_getsize path w = inr n ->
  (n <= 10 * 1024 * 1024)%Z ->
  read_text path w = inr content ->
  truthy (strip content) = false ->
  run (chat request) w
  = (error (lit "No text or image could be extracted from the file") 400,
     w,
     [Subprocess docker_ps_names; HttpGet tags_url;
      PathExists path; PathGetsize path; OpenRead path]).
Proof.
  intros Hrun Hmodel Hmanual Hfid Htruthy path Htext Hex Hsize Hn Hread
    Hblank.
  rewrite (@chat_reader_run request fid w n (OpenRead path)
             (inr (content, []))
             Hrun Hmodel Hmanual Hfid Htruthy Hex Hsize Hn).
  - rewrite Hblank. reflexivity.
  - intros t. fold path. rewrite Htext.
    unfold chat_text. unfold_monad. rewrite Hread. reflexivity.
Qed.

(** The calls for a text file that is not blank, in terms of what line 127
    makes of the prompt. *)
Lemma chat_text_file_calls (request : ChatRequest) (fid : pystr)
    (w : W) (n : Z) (content : pystr) :
  service_running w = true ->
  model_available w = true ->
  has_manual_text request = false ->
  file_id request = Some fid ->
  truthy fid = true ->
  let path := path_join UPLOAD_DIR fid in
  endswith (lower unicode_lower path) (lit ".pdf") = false ->
  path_exists path w = true ->
  path_getsize path w = inr n ->
  (n <= 10 * 1024 * 1024)%Z ->
  read_text path w = inr content ->
  truthy (strip content) = true ->
  let p := or_empty (prompt request) in
  calls_of (run (chat request) w)
  = [Subprocess docker_ps_names; HttpGet tags_url;
     PathExists path; PathGetsize path; OpenRead path;
     HttpPost OLLAMA_URL
       (payload
          (truncate_prompt
             (document_header ++ content ++ [LF; LF]
              ++ (if truthy (strip p) then lit "User message: " ++ p
                  else lit "Please analyze this document.")))
          [])
       (Some 180%Z)].
Proof.
  intros Hrun Hmodel Hmanual Hfid Htruthy path Htext Hex Hsize Hn Hread
    Hfull p.
  rewrite (@chat_reader_run request fid w n (OpenRead path)
             (inr (content, []))
             Hrun Hmodel Hmanual Hfid Htruthy Hex Hsize Hn).
  - rewrite Hfull. cbn [negb andb]. rewrite chat_generate_run. cbv zeta.
    unfold construct_prompt. rewrite Hfull. fold p.
    unfold calls_of, finish, document_header.
    destruct (reply_of_post _); destruct (truthy (strip p));
      cbn [snd]; rewrite <- !app_assoc; reflexivity.
  - intros t. fold path. rewrite Htext.
    unfold chat_text. unfold_monad. rewrite Hread. reflexivity.
Qed.

(** A manual text that is unset, or set and blank, is no manual text. *)
Lemma manual_text_unset_or_blank (request : ChatRequest) :
  manual_text request = None
  \/ (exists m, manual_text request = Some m /\ truthy (strip m) = false) ->
  has_manual_text request = false.
Proof.
  unfold has_manual_text. intros [-> | (m & -> & Hm)]; [reflexivity|].
  cbn [or_empty]. rewrite Hm. apply andb_false_r.
Qed.

(** X12. A file that is read as text and is not blank goes into the
    document template as it was read, white space included, with no image.
    The template ends with [User message: ] and the prompt when the request
    has a prompt that is not blank; it ends with
    [Please analyze this document.] when the prompt is set but blank, and
    also when the request has no prompt at all. The manual text of such a
    request is unset, or set and blank. *)
Theorem chat_text_file_prompt (request : ChatRequest) (fid : pystr)
    (w : W) (n : Z) (content : pystr) :
  service_running w = true ->
  model_available w = true ->
  manual_text request = None
  \/ (exists m, manual_text request = Some m /\ truthy (strip m) = false) ->
  file_id request = Some fid ->
  fid <> [] ->
  let path := path_join UPLOAD_DIR fid in
  endswith (lower unicode_lower path) (lit ".pdf") = false ->
  path_exists path w = true ->
  path_getsize path w = inr n ->
  (n <= 10 * 1024 * 1024)%Z ->
  read_text path w = inr content ->
  truthy (strip content) = true ->
  let sent ending :=
    [Subprocess docker_ps_names; HttpGet tags_url;
     PathExists path; PathGetsize path; OpenRead path;
     HttpPost OLLAMA_URL
       (payload
          (truncate_prompt (document_header ++ content ++ [LF; LF] ++ ending))
          [])
       (Some 180%Z)] in
  (forall p, prompt request = Some p -> truthy (strip p) = true ->
     calls_of (run (chat request) w) = sent (lit "User message: " ++ p))
  /\ (forall p, prompt request = Some p -> truthy (strip p) = false ->
        calls_of (run (chat request) w)
        = sent (lit "Please analyze this document."))
  /\ (prompt request = None ->
      calls_of (run (chat request) w)
      = sent (lit "Please analyze this document.")).
Proof.
  intros Hrun Hmodel Hmanual Hfid Hne path Htext Hex Hsize Hn Hread Hfull
    sent.
  assert (Htruthy : truthy fid = true)
    by (destruct fid; [contradiction | reflexivity]).
  pose proof (@chat_text_file_calls request fid w n content Hrun Hmodel
                (manual_text_unset_or_blank request Hmanual) Hfid Htruthy
                Htext Hex Hsize Hn Hread Hfull) as Hcalls.
  cbv zeta in Hcalls. fold path in Hcalls.
  split; [|split].
  - intros p Hp Hstrip. rewrite Hcalls, Hp. cbn [or_empty].
    rewrite Hstrip. reflexivity.
  - intros p Hp Hstrip. rewrite Hcalls, Hp. cbn [or_empty].
    rewrite Hstrip. reflexivity.
  - intros Hp. rewrite Hcalls, Hp. reflexivity.
Qed.

(** The calls for a prompt alone, in terms of what lines 127 and 137 make of
    the fields. *)
Lemma chat_bare_prompt_calls (request : ChatRequest) (w : W) :
  service_running w = true ->
  model_available w = true ->
  has_manual_text request = false ->
  opt_truthy (file_id request) = false ->
  truthy (strip (or_empty (prompt request))) = true ->
  calls_of (run (chat request) w)
  = [Subprocess docker_ps_names; HttpGet tags_url;
     HttpPost OLLAMA_URL
       (payload (truncate_prompt (or_empty (prompt request))) [])
       (Some 180%Z)].
Proof.
  intros Hrun Hmodel Hmanual Hfile Hprompt.
  rewrite chat_run, Hrun, Hmodel. simpl negb. cbv iota.
  unfold chat_answer. unfold has_manual_text in Hmanual.
  rewrite Hmanual, Hfile. unfold bind, ret. cbn beta iota.
  rewrite Hprompt. cbn [negb]. rewrite andb_false_r.
  rewrite chat_generate_run. cbv zeta.
  unfold construct_prompt. cbn [strip lstrip rstrip rev truthy length app].
  cbn [Nat.ltb Nat.leb].
  unfold calls_of, finish. destruct (reply_of_post _); reflexivity.
Qed.

(** X13. A request whose prompt is set and not blank, whose manual text is
    unset or blank, and whose file id is unset or the empty string, sends
    the prompt itself, cut at the limit and otherwise unchanged, with no
    image and without touching any file: an empty file id is treated like a
    missing one. *)
Theorem chat_bare_prompt (request : ChatRequest) (w : W) (p : pystr) :
  service_running w = true ->
  model_available w = true ->
  prompt request = Some p ->
  truthy (strip p) = true ->
  manual_text request = None
  \/ (exists m, manual_text request = Some m /\ truthy (strip m) = false) ->
  file_id request = None \/ file_id request = Some [] ->
  calls_of (run (chat request) w)
  = [Subprocess docker_ps_names; HttpGet tags_url;
     HttpPost OLLAMA_URL (payload (truncate_prompt p) []) (Some 180%Z)].
Proof.
  intros Hrun Hmodel Hp Hstrip Hmanual Hfile.
  rewrite (@chat_bare_prompt_calls request w Hrun Hmodel
             (manual_text_unset_or_blank request Hmanual)).
  - rewrite Hp. reflexivity.
  - destruct Hfile as [-> | ->]; reflexivity.
  - rewrite Hp. exact Hstrip.
Qed.

(** X14. The file id is joined to the upload directory with [os.path.join],
    so an id that begins with a slash is used as the path itself: the
    existence test, the size and the read are those of that absolute path,
    outside the upload directory. *)
Theorem chat_absolute_file_id (request : ChatRequest) (fid : pystr) (w : W)
    (n : Z) :
  service_running w = true ->
  model_available w = true ->
  has_manual_text request = false ->
  file_id request = Some fid ->
  startswith fid (lit "/") = true ->
  path_exists fid w = true ->
  path_getsize fid w = inr n ->
  (n <= 10 * 1024 * 1024)%Z ->
  path_join UPLOAD_DIR fid = fid
  /\ exists attempt rest,
       calls_of (run (chat request) w)
       = [Subprocess docker_ps_names; HttpGet tags_url;
          PathExists fid; PathGetsize fid] ++ attempt :: rest
       /\ (attempt = PdfOpen fid \/ attempt = OpenRead fid).
Proof.
  intros Hrun Hmodel Hmanual Hfid Habs Hex Hsize Hn.
  assert (Hjoin : path_join UPLOAD_DIR fid = fid).
  { unfold path_join. rewrite Habs. reflexivity. }
  split; [exact Hjoin|].
  assert (Htruthy : truthy fid = true).
  { destruct fid; [discriminate Habs | reflexivity]. }
  rewrite <- Hjoin in Hex, Hsize.
  destruct (chat_admitted_run request w Hrun Hmodel Hmanual Hfid Htruthy
              Hex Hsize Hn)
    as (reply & w' & attempt & rest & E & _ & Hattempt).
  rewrite Hjoin in E, Hattempt. rewrite E.
  exists attempt, rest. split; [reflexivity | tauto].
Qed.

End FileBranch.

(** ** More of [chat]: the generation call and the calls as a whole *)

Section Answer.

Context {W : Type} {RT : Runtime W}.

(** Once the generation call is in the trace, the reply and the world are
    those that follow from its outcome. *)
Lemma chat_reply_after_post (request : ChatRequest) (w : W) (body : json) :
  In (HttpPost OLLAMA_URL body (Some 180%Z))
     (calls_of (run (chat request) w)) ->
  reply_of (run (chat request) w)
  = finish_reply (fst (requests_post OLLAMA_URL body (Some 180%Z) w)).
Proof.
  intros Hin.
  destruct (chat_run_shape request w)
    as [(reply & calls & E & Hno) | (fc & imgs & pre & E & Hno)].
  - rewrite E in Hin. apply Hno in Hin. discriminate Hin.
  - cbv zeta in E. rewrite E in *. unfold calls_of in Hin. simpl snd in Hin.
    apply in_app_or in Hin. destruct Hin as [Hin | [Heq | []]].
    + apply Hno in Hin. discriminate Hin.
    + inversion Heq as [Hbody]. rewrite Hbody. reflexivity.
Qed.

(** X15. After the generation call, an [HTTPError] or a status from 400 to
    599 is answered with status 500 and [Ollama API error: ] followed by the
    message; any other exception of [requests] with status 500 and
    [Failed to connect to Ollama: ] followed by the message. *)
Theorem chat_upstream_errors (request : ChatRequest) (w : W) (body : json) :
  In (HttpPost OLLAMA_URL body (Some 180%Z))
     (calls_of (run (chat request) w)) ->
  let outcome := fst (requests_post OLLAMA_URL body (Some 180%Z) w) in
  (forall m, outcome = inl (HTTPError m) ->
     reply_of (run (chat request) w)
     = error (lit "Ollama API error: " ++ m) 500)
  /\ (forall resp, outcome = inr resp ->
        (400 <= status_code resp < 600)%Z ->
        reply_of (run (chat request) w)
        = error (lit "Ollama API error: " ++ http_error_msg resp) 500)
  /\ (forall m, outcome = inl (RequestException m) ->
        reply_of (run (chat request) w)
        = error (lit "Failed to connect to Ollama: " ++ m) 500).
Proof.
  intros Hin outcome. rewrite (chat_reply_after_post request w body Hin).
  fold outcome. unfold finish_reply, reply_of_post.
  split; [|split].
  - intros m ->. reflexivity.
  - intros resp -> Hs.
    replace ((400 <=? status_code resp) && (status_code resp <? 600))%Z
      with true
      by (symmetry; apply andb_true_iff; split;
          [apply Z.leb_le | apply Z.ltb_lt]; lia).
    reflexivity.
  - intros m ->. reflexivity.
Qed.

(** X16. After a generation call that came back without an error status: a
    body that [requests] cannot read as JSON is answered like a failed
    connection, with status 500; a JSON body that is not an object, and any
    exception that is not one of [requests], is not caught and leaves the
    handler. *)
Theorem chat_payload_errors (request : ChatRequest) (w : W) (body : json) :
  In (HttpPost OLLAMA_URL body (Some 180%Z))
     (calls_of (run (chat request) w)) ->
  let outcome := fst (requests_post OLLAMA_URL body (Some 180%Z) w) in
  (forall resp m, outcome = inr resp ->
     (status_code resp < 400 \/ 600 <= status_code resp)%Z ->
     json_body resp = inl (RequestException m) ->
     reply_of (run (chat request) w)
     = error (lit "Failed to connect to Ollama: " ++ m) 500)
  /\ (forall resp v, outcome = inr resp ->
        (status_code resp < 400 \/ 600 <= status_code resp)%Z ->
        json_body resp = inr v ->
        (forall items, v <> JDict items) ->
        exists e, reply_of (run (chat request) w) = Unhandled e)
  /\ (forall m, outcome = inl (Exception m) ->
        reply_of (run (chat request) w) = Unhandled (Exception m)).
Proof.
  intros Hin outcome. rewrite (chat_reply_after_post request w body Hin).
  fold outcome. unfold finish_reply, reply_of_post.
  assert (Hok : forall resp,
            (status_code resp < 400 \/ 600 <= status_code resp)%Z ->
            ((400 <=? status_code resp) && (status_code resp <? 600))%Z
            = false).
  { intros resp Hs. apply andb_false_iff.
    destruct Hs; [left; apply Z.leb_gt | right; apply Z.ltb_ge]; lia. }
  split; [|split].
  - intros resp m -> Hs Hjson. rewrite (Hok resp Hs), Hjson. reflexivity.
  - intros resp v -> Hs Hjson Hv. rewrite (Hok resp Hs), Hjson.
    destruct v; try (eexists; reflexivity).
    exfalso. exact (Hv _ eq_refl).
  - intros m ->. reflexivity.
Qed.

(** X17. The generation call counts as a success for every status that is
    not from 400 to 599, a redirect or an informational one included: with a
    JSON object as body the reply is its [response] field, or the empty
    string when the field is missing, with status 200. *)
Theorem chat_success_statuses (request : ChatRequest) (w : W) (body : json)
    (resp : HttpResponse) (items : list (pystr * json)) :
  In (HttpPost OLLAMA_URL body (Some 180%Z))
     (calls_of (run (chat request) w)) ->
  fst (requests_post OLLAMA_URL body (Some 180%Z) w) = inr resp ->
  (status_code resp < 400 \/ 600 <= status_code resp)%Z ->
  json_body resp = inr (JDict items) ->
  reply_of (run (chat request) w)
  = JSONResponse
      (JDict [(lit "response",
               match dict_lookup items (lit "response") with
               | Some v => v
               | None => JStr []
               end)]) 200.
Proof.
  intros Hin Hpost Hs Hjson.
  rewrite (chat_reply_after_post request w body Hin), Hpost.
  unfold finish_reply, reply_of_post.
  replace ((400 <=? status_code resp) && (status_code resp <? 600))%Z
    with false
    by (symmetry; apply andb_false_iff;
        destruct Hs; [left; apply Z.leb_gt | right; apply Z.ltb_ge]; lia).
  rewrite Hjson. reflexivity.
Qed.

Lemma content_calls_allowed (request : ChatRequest) (tr : list Event) :
  content_calls request tr ->
  forall ev, In ev tr -> chat_call request ev.
Proof.
  unfold content_calls, chat_call. intros H ev Hin.
  destruct (has_manual_text request); [subst; contradiction|].
  destruct (opt_truthy (file_id request)); [|subst; contradiction].
  destruct H; simpl in Hin;
    repeat (destruct Hin as [<- | Hin]; [tauto|]); contradiction.
Qed.

(** X18. [chat] only reads. Each of its calls is the [docker ps] probe, the
    request for the tags, a test or a read of the one path of its file id, or
    the generation call; it runs no other command and writes no file. There
    is at most one generation call and it is the last call; without it the
    world is left as it was. *)
Theorem chat_only_reads (request : ChatRequest) (w : W) :
  (forall ev, In ev (calls_of (run (chat request) w)) ->
              chat_call request ev)
  /\ (exists pre,
        (calls_of (run (chat request) w) = pre
         /\ world_of (run (chat request) w) = w
         \/ exists body,
              calls_of (run (chat request) w)
              = pre ++ [HttpPost OLLAMA_URL body (Some 180%Z)])
        /\ forall ev, In ev pre -> is_generate_call ev = false).
Proof.
  split.
  - intros ev Hin.
    assert (Hps : chat_call request (Subprocess docker_ps_names))
      by (unfold chat_call; tauto).
    assert (Htags : chat_call request (HttpGet tags_url))
      by (unfold chat_call; tauto).
    destruct (chat_run_calls request w)
      as [E | [E | (tr & Hc & [E | (body & E)])]]; rewrite E in Hin.
    + destruct Hin as [<- | []]; exact Hps.
    + destruct Hin as [<- | [<- | []]]; assumption.
    + apply in_app_or in Hin. destruct Hin as [Hin | Hin].
      * destruct Hin as [<- | [<- | []]]; assumption.
      * exact (@content_calls_allowed request tr Hc ev Hin).
    + apply in_app_or in Hin. destruct Hin as [Hin | Hin].
      * destruct Hin as [<- | [<- | []]]; assumption.
      * apply in_app_or in Hin. destruct Hin as [Hin | [<- | []]].
        -- exact (@content_calls_allowed request tr Hc ev Hin).
        -- unfold chat_call. do 6 right. exists body. reflexivity.
  - destruct (chat_run_shape request w)
      as [(reply & calls & E & Hno) | (fc & imgs & pre & E & Hno)].
    + exists calls. rewrite E. split; [left; split; reflexivity | exact Hno].
    + cbv zeta in E. exists pre. rewrite E. split; [|exact Hno].
      right. eexists. reflexivity.
Qed.

End Answer.

(** ** What reaches the prompt *)

Section Composition.

Context {W : Type} {RT : Runtime W}.





End Composition.

(** ** The cut and the page loop *)

Lemma firstn_app_left {A : Type} (n : nat) (l1 l2 : list A) :
  n <= length l1 -> firstn n (l1 ++ l2) = firstn n l1.
Proof.
  intros H. rewrite firstn_app.
  replace (n - length l1) with 0 by lia.
  rewrite firstn_O, app_nil_r. reflexivity.
Qed.

(** X20. When the header and the document together reach 4000 characters
    (a document of 3948 characters or more), the prompt that is sent no
    longer depends on the user message: it is the first 4000 characters of
    header and document, followed by the marker. *)
Theorem prompt_cropped_by_document (content : pystr) (images : list pystr)
    (p1 p2 : pystr) :
  truthy (strip content) = true ->
  3948 <= length content ->
  truncate_prompt (construct_prompt content images p1)
  = firstn 4000 (document_header ++ content) ++ truncation_marker
  /\ truncate_prompt (construct_prompt content images p1)
     = truncate_prompt (construct_prompt content images p2).
Proof.
  intros Hc Hlen.
  assert (Hshape : forall p, exists rest,
            construct_prompt content images p
            = (document_header ++ content) ++ [LF; LF] ++ rest).
  { intros p. unfold construct_prompt, document_header. rewrite Hc.
    destruct (truthy (strip p)); eexists; rewrite <- !app_assoc;
      reflexivity. }
  assert (Hhead : 4000 <= length (document_header ++ content)).
  { rewrite length_app.
    change (length document_header) with 52. lia. }
  assert (Hcut : forall p,
            truncate_prompt (construct_prompt content images p)
            = firstn 4000 (document_header ++ content) ++ truncation_marker).
  { intros p. destruct (Hshape p) as [rest E]. rewrite E.
    destruct (truncate_prompt_long
                ((document_header ++ content) ++ [LF; LF] ++ rest))
      as [-> _].
    - unfold max_prompt_length. rewrite length_app. simpl length. lia.
    - unfold max_prompt_length. rewrite firstn_app_left by exact Hhead.
      reflexivity. }
  split; [apply Hcut|]. rewrite (Hcut p1), (Hcut p2). reflexivity.
Qed.

(** X21. The cut keeps the first 4000 characters of what it is given and is
    idempotent: cutting a cut prompt changes nothing. *)
Theorem truncate_prompt_idempotent (p : pystr) :
  firstn 4000 (truncate_prompt p) = firstn 4000 p
  /\ truncate_prompt (truncate_prompt p) = truncate_prompt p.
Proof.
  destruct (Nat.le_gt_cases (length p) max_prompt_length) as [H | H].
  - rewrite (truncate_prompt_short p H).
    split; [reflexivity | exact (truncate_prompt_short p H)].
  - destruct (truncate_prompt_long p H) as [E Hlen].
    assert (Hfirst : firstn 4000 (truncate_prompt p) = firstn 4000 p).
    { rewrite E. unfold max_prompt_length in *.
      rewrite firstn_app_left
        by (rewrite length_firstn; lia).
      apply firstn_firstn. }
    split; [exact Hfirst|].
    destruct (truncate_prompt_long (truncate_prompt p)) as [E2 _].
    + rewrite Hlen. lia.
    + rewrite E2. unfold max_prompt_length. rewrite Hfirst.
      rewrite E. reflexivity.
Qed.

(** X22. The page loop appends, in page order, the text of every page that
    has some, each followed by a newline; pages whose text is [None] or
    empty add nothing. It stops at the first page whose extraction raises
    and passes that exception on. *)
Theorem extract_pages_lines (ps : list PdfPage) (acc : pystr) :
  (Forall (fun page => exists o, extract_text page = inr o) ps ->
   extract_pages ps acc = inr (acc ++ flat_map page_line ps))
  /\ (forall before page after e,
        ps = before ++ page :: after ->
        Forall (fun page => exists o, extract_text page = inr o) before ->
        extract_text page = inl e ->
        extract_pages ps acc = inl e).
Proof.
  assert (Hok : forall qs a,
            Forall (fun page => exists o, extract_text page = inr o) qs ->
            forall k,
              extract_pages (qs ++ k) a
              = extract_pages k (a ++ flat_map page_line qs)).
  { intros qs a H. revert a.
    induction H as [|page qs [o Ho] _ IH]; intros a k.
    - simpl. rewrite app_nil_r. reflexivity.
    - simpl. rewrite Ho, IH. unfold page_line at 2. rewrite Ho.
      destruct o as [text|]; simpl.
      + destruct (truthy text); simpl.
        * rewrite <- !app_assoc. reflexivity.
        * reflexivity.
      + reflexivity. }
  split.
  - intros H. rewrite <- (app_nil_r ps) at 1. rewrite (Hok ps acc H).
    reflexivity.
  - intros before page after e -> Hbefore He.
    rewrite (Hok before acc Hbefore). simpl. rewrite He. reflexivity.
Qed.

(** * More runs on the concrete machines *)

Module MoreRuns.

Import Sim Lab.

(** The cleanup and the start on a host with containers left behind: the
    exited and the created one are removed, the restarting one is not. *)
Example ollama_start_on_littered_host :
  calls_of (@run Host (@ollama_start Host host_runtime) littered)
  = [Subprocess docker_ps_names; Subprocess docker_ps_all;
     rm_call (lit "a1"); rm_call (lit "c3");
     Subprocess [lit "docker"; lit "run"; lit "-d"; lit "--name";
                 lit "ollama_server"; lit "-p"; lit "11434:11434";
                 lit "ollama/ollama"]]
  /\ containers (world_of (@run Host (@ollama_start Host host_runtime)
                             littered))
     = [(lit "b2", lit "Restarting (1) 5 seconds ago");
        (lit "f00d", lit "Up 1 second")].
Proof. split; reflexivity. Qed.

(** C9, as stated, fails. A PDF without pages, stored under a name that ends
    in [.pdf], has an empty text layer and gets an error and no image; a
    scanned PDF stored the way an upload stores it, under its UUID, is read
    as text and sent without an image. *)
Lemma chat_pdf_without_image :
  pdfplumber_open (lit "uploads/empty.pdf") ready
  = inr {| pages := []; metadata := [] |}
  /\ extract_pages [] [] = inr []
  /\ run (chat (request None (Some (lit "empty.pdf")) None)) ready
     = (error (lit "Failed to process PDF: list index out of range") 400,
        ready,
        [Subprocess docker_ps_names; HttpGet tags_url;
         PathExists (lit "uploads/empty.pdf");
         PathGetsize (lit "uploads/empty.pdf");
         PdfOpen (lit "uploads/empty.pdf")])
  /\ pdfplumber_open (lit "uploads/" ++ hello_id) scanned_upload
     = inr {| pages := [scanned_page];
              metadata := [(lit "Title", lit "Invoice 7")] |}
  /\ extract_pages [scanned_page] [] = inr []
  /\ calls_of (run (chat (request None (Some hello_id) None)) scanned_upload)
     = [Subprocess docker_ps_names; HttpGet tags_url;
        PathExists (lit "uploads/" ++ hello_id);
        PathGetsize (lit "uploads/" ++ hello_id);
        OpenRead (lit "uploads/" ++ hello_id);
        HttpPost OLLAMA_URL
          (payload
             (document_header ++ lit "%PDF-1.4" ++ [LF; LF]
              ++ lit "Please analyze this document.") [])
          (Some 180%Z)].
Proof. repeat split; reflexivity. Qed.

(** C10, as stated, fails. A 204 answer is a success without a body: the
    reply is a 500 error, not an empty string. A 200 answer whose body is
    JSON [null] is not answered at all. *)
Lemma chat_success_without_object :
  (200 <= status_code no_content_response < 300)%Z
  /\ reply_of (run (chat (request (Some (lit "hi")) None None))
                 (with_reply (inr no_content_response)))
     = error (lit "Failed to connect to Ollama: Expecting value") 500
  /\ reply_of (run (chat (request (Some (lit "hi")) None None))
                 (with_reply (inr no_content_response)))
     <> JSONResponse (JDict [(lit "response", JStr [])]) 200
  /\ (200 <= status_code null_response < 300)%Z
  /\ reply_of (run (chat (request (Some (lit "hi")) None None))
                 (with_reply (inr null_response)))
     = Unhandled (Exception (lit "object has no attribute 'get'")).
Proof.
  split; [cbn; lia|]. split; [reflexivity|].
  split; [vm_compute; discriminate|].
  split; [cbn; lia | reflexivity].
Qed.

(** X1 *)
Lemma is_ollama_running_substring_witness :
  exists b,
    @is_ollama_running World runtime ready []
    = (inr b, ready, [] ++ [Subprocess docker_ps_names])
    /\ (b = true <->
        exists pre post,
          subprocess_stdout docker_ps_names ready
          = inr (pre ++ OLLAMA_CONTAINER_NAME ++ post)).
Proof. exact (@is_ollama_running_substring World runtime ready []). Defined.

(** X2 *)
Lemma model_available_exact_name_witness :
  model_available ready = true <->
  exists d, In (JDict d) [JDict [(lit "name", JStr MODEL_NAME)]]
            /\ dict_lookup d (lit "name") = Some (JStr MODEL_NAME).
Proof.
  refine (@model_available_exact_name World runtime ready
            {| status_code := 200; http_error_msg := [];
               json_body := inr tags_with_model |}
            [(lit "models", JList [JDict [(lit "name", JStr MODEL_NAME)]])]
            [JDict [(lit "name", JStr MODEL_NAME)]] _ _ _ _ _);
    try reflexivity.
  - left. cbn. lia.
  - repeat constructor. eexists. reflexivity.
Defined.

(** X3 *)
Lemma model_available_degrades_witness :
  model_available stopped = false.
Proof.
  refine (proj1 (@model_available_degrades World runtime stopped)
            (RequestException (lit "Connection refused")) _).
  reflexivity.
Defined.

(** X4 *)
Lemma remove_stopped_only_stale_witness :
  exists (w' : Host) ids,
    @remove_stopped_ollama_container Host host_runtime littered []
    = (inr tt, w', [] ++ Subprocess docker_ps_all :: map rm_call ids)
    /\ forall id, In id ids ->
         exists out line status,
           host_stdout docker_ps_all littered = inr out
           /\ In line (splitlines (strip out))
           /\ split1 58 line = Some (id, status)
           /\ stale_status status = true.
Proof. exact (@remove_stopped_only_stale Host host_runtime littered []). Defined.

(** X5 *)
Lemma ollama_start_cleans_then_runs_witness :
  calls_of (@run Host (@ollama_start Host host_runtime) littered)
  = [Subprocess docker_ps_names; Subprocess docker_ps_all]
    ++ map rm_call [lit "a1"; lit "c3"]
    ++ [Subprocess (docker_run_cmd (lit "Darwin"))].
Proof.
  refine (proj1 (@ollama_start_cleans_then_runs Host host_runtime littered
                   (listing (containers littered)) _ _ _)).
  - reflexivity.
  - reflexivity.
  - intros id v. eexists. reflexivity.
Defined.

(** X6 *)
Lemma ollama_status_reply_witness :
  run ollama_status no_model
  = (JSONResponse
       (JDict [(lit "docker_running", JBool (service_running no_model));
               (lit "model_available",
                JBool (service_running no_model
                       && model_available no_model))]) 200,
     no_model,
     Subprocess docker_ps_names
     :: (if service_running no_model then [HttpGet tags_url] else [])).
Proof. exact (@ollama_status_reply World runtime no_model). Defined.

(** X7 *)
Lemma ollama_pull_model_reply_witness :
  run ollama_pull_model stopped
  = (error (lit "Ollama container not running") 400, stopped,
     [Subprocess docker_ps_names])
  /\ run ollama_pull_model ready
     = (JSONResponse (JDict [(lit "pulled", JBool true)]) 200, ready,
        [Subprocess docker_ps_names; HttpPost pull_url pull_body None]).
Proof.
  split.
  - refine (proj1 (@ollama_pull_model_reply World runtime stopped) _).
    reflexivity.
  - refine (proj2 (@ollama_pull_model_reply World runtime ready) _).
    reflexivity.
Defined.

(** X8 *)
Lemma chat_file_missing_witness :
  run (chat (request None (Some (lit "nowhere")) None)) stocked
  = (FileNotFound, stocked,
     [Subprocess docker_ps_names; HttpGet tags_url;
      PathExists (path_join UPLOAD_DIR (lit "nowhere"))]).
Proof.
  refine (@chat_file_missing World runtime
            (request None (Some (lit "nowhere")) None) (lit "nowhere")
            stocked _ _ _ _ _ _); reflexivity.
Defined.

(** X9 *)
Lemma chat_read_failure_witness :
  run (chat (request None (Some (lit "locked")) None)) stocked
  = (error (lit "Failed to read file: "
            ++ str_of_exn (Exception (lit "Permission denied"))) 400,
     stocked,
     [Subprocess docker_ps_names; HttpGet tags_url;
      PathExists (path_join UPLOAD_DIR (lit "locked"));
      PathGetsize (path_join UPLOAD_DIR (lit "locked"));
      OpenRead (path_join UPLOAD_DIR (lit "locked"))]).
Proof.
  refine (@chat_read_failure World runtime
            (request None (Some (lit "locked")) None) (lit "locked")
            stocked 64 (Exception (lit "Permission denied"))
            _ _ _ _ _ _ _ _ _ _); try reflexivity.
  cbn. lia.
Defined.

(** X10 *)
Lemma chat_pdf_failure_witness :
  run (chat (request None (Some (lit "smudge.pdf")) None)) stocked
  = (error (lit "Failed to process PDF: "
            ++ str_of_exn (Exception (lit "cannot render"))) 400,
     stocked,
     [Subprocess docker_ps_names; HttpGet tags_url;
      PathExists (path_join UPLOAD_DIR (lit "smudge.pdf"));
      PathGetsize (path_join UPLOAD_DIR (lit "smudge.pdf"));
      PdfOpen (path_join UPLOAD_DIR (lit "smudge.pdf"))]).
Proof.
  refine (@chat_pdf_failure World runtime
            (request None (Some (lit "smudge.pdf")) None) (lit "smudge.pdf")
            stocked 900 (Exception (lit "cannot render"))
            _ _ _ _ _ _ _ _ _ _); try reflexivity.
  - cbn. lia.
  - right. right.
    exists {| pages := [unrenderable_page]; metadata := [] |},
           (lit "  " ++ [LF]).
    repeat split; reflexivity.
Defined.

(** X11 *)
Lemma chat_blank_file_rejected_witness :
  run (chat (request (Some (lit "what is this?")) (Some (lit "blank")) None))
      stocked
  = (error (lit "No text or image could be extracted from the file") 400,
     stocked,
     [Subprocess docker_ps_names; HttpGet tags_url;
      PathExists (path_join UPLOAD_DIR (lit "blank"));
      PathGetsize (path_join UPLOAD_DIR (lit "blank"));
      OpenRead (path_join UPLOAD_DIR (lit "blank"))]).
Proof.
  refine (@chat_blank_file_rejected World runtime
            (request (Some (lit "what is this?")) (Some (lit "blank")) None)
            (lit "blank") stocked 3 (lit "  " ++ [LF])
            _ _ _ _ _ _ _ _ _ _ _); try reflexivity.
  cbn. lia.
Defined.

(** X12 *)
Lemma chat_text_file_prompt_witness :
  calls_of (run (chat (request (Some (lit "shorter")) (Some (lit "notes"))
                         None)) stocked)
  = [Subprocess docker_ps_names; HttpGet tags_url;
     PathExists (lit "uploads/notes"); PathGetsize (lit "uploads/notes");
     OpenRead (lit "uploads/notes");
     HttpPost OLLAMA_URL
       (payload
          (truncate_prompt
             (document_header ++ lit "hello world" ++ [LF; LF]
              ++ lit "User message: " ++ lit "shorter")) [])
       (Some 180%Z)]
  /\ calls_of (run (chat (request (Some (lit " ")) (Some (lit "notes"))
                            (Some [])))
                 stocked)
     = [Subprocess docker_ps_names; HttpGet tags_url;
        PathExists (lit "uploads/notes"); PathGetsize (lit "uploads/notes");
        OpenRead (lit "uploads/notes");
        HttpPost OLLAMA_URL
          (payload
             (truncate_prompt
                (document_header ++ lit "hello world" ++ [LF; LF]
                 ++ lit "Please analyze this document.")) [])
          (Some 180%Z)]
  /\ calls_of (run (chat (request None (Some (lit "notes")) None)) stocked)
     = [Subprocess docker_ps_names; HttpGet tags_url;
        PathExists (lit "uploads/notes"); PathGetsize (lit "uploads/notes");
        OpenRead (lit "uploads/notes");
        HttpPost OLLAMA_URL
          (payload
             (truncate_prompt
                (document_header ++ lit "hello world" ++ [LF; LF]
                 ++ lit "Please analyze this document.")) [])
          (Some 180%Z)].
Proof.
  split; [|split].
  - refine (proj1
      (@chat_text_file_prompt World runtime
         (request (Some (lit "shorter")) (Some (lit "notes")) None)
         (lit "notes") stocked 11 (lit "hello world")
         _ _ _ _ _ _ _ _ _ _ _) (lit "shorter") _ _);
      try reflexivity; try discriminate; try (cbn; lia).
    left. reflexivity.
  - refine (proj1 (proj2
      (@chat_text_file_prompt World runtime
         (request (Some (lit " ")) (Some (lit "notes")) (Some []))
         (lit "notes") stocked 11 (lit "hello world")
         _ _ _ _ _ _ _ _ _ _ _)) (lit " ") _ _);
      try reflexivity; try discriminate; try (cbn; lia).
    right. exists []. split; reflexivity.
  - refine (proj2 (proj2
      (@chat_text_file_prompt World runtime
         (request None (Some (lit "notes")) None)
         (lit "notes") stocked 11 (lit "hello world")
         _ _ _ _ _ _ _ _ _ _ _)) _);
      try reflexivity; try discriminate; try (cbn; lia).
    left. reflexivity.
Defined.

(** X13 *)
Lemma chat_bare_prompt_witness :
  calls_of (run (chat (request (Some (lit "hi")) None None)) ready)
  = [Subprocess docker_ps_names; HttpGet tags_url;
     HttpPost OLLAMA_URL (payload (truncate_prompt (lit "hi")) [])
       (Some 180%Z)]
  /\ calls_of (run (chat (request (Some (lit "hi")) (Some [])
                            (Some (lit "  ")))) ready)
     = [Subprocess docker_ps_names; HttpGet tags_url;
        HttpPost OLLAMA_URL (payload (truncate_prompt (lit "hi")) [])
          (Some 180%Z)].
Proof.
  split.
  - refine (@chat_bare_prompt World runtime
              (request (Some (lit "hi")) None None) ready (lit "hi")
              _ _ _ _ _ _); try reflexivity.
    + left. reflexivity.
    + left. reflexivity.
  - refine (@chat_bare_prompt World runtime
              (request (Some (lit "hi")) (Some []) (Some (lit "  "))) ready
              (lit "hi") _ _ _ _ _ _); try reflexivity.
    + right. exists (lit "  "). split; reflexivity.
    + right. reflexivity.
Defined.

(** X14 *)
Lemma chat_absolute_file_id_witness :
  path_join UPLOAD_DIR (lit "/etc/hostname") = lit "/etc/hostname"
  /\ exists attempt rest,
       calls_of (run (chat (request None (Some (lit "/etc/hostname")) None))
                   stocked)
       = [Subprocess docker_ps_names; HttpGet tags_url;
          PathExists (lit "/etc/hostname");
          PathGetsize (lit "/etc/hostname")] ++ attempt :: rest
       /\ (attempt = PdfOpen (lit "/etc/hostname")
           \/ attempt = OpenRead (lit "/etc/hostname")).
Proof.
  refine (@chat_absolute_file_id World runtime
            (request None (Some (lit "/etc/hostname")) None)
            (lit "/etc/hostname") stocked 5 _ _ _ _ _ _ _ _);
    try reflexivity.
  cbn. lia.
Defined.

(** The absolute path is read and its text goes into the prompt. *)
Example chat_reads_outside_upload_dir :
  calls_of (run (chat (request None (Some (lit "/etc/hostname")) None))
              stocked)
  = [Subprocess docker_ps_names; HttpGet tags_url;
     PathExists (lit "/etc/hostname"); PathGetsize (lit "/etc/hostname");
     OpenRead (lit "/etc/hostname");
     HttpPost OLLAMA_URL
       (payload
          (document_header ++ lit "relay" ++ [LF; LF]
           ++ lit "Please analyze this document.") [])
       (Some 180%Z)].
Proof. reflexivity. Qed.

(** X15 *)
Lemma chat_upstream_errors_witness :
  reply_of (run (chat (request (Some (lit "hi")) None None))
              (with_reply (inr overloaded_response)))
  = error (lit "Ollama API error: "
           ++ lit "503 Server Error: Service Unavailable") 500.
Proof.
  refine (proj1 (proj2
    (@chat_upstream_errors World runtime
       (request (Some (lit "hi")) None None)
       (with_reply (inr overloaded_response)) (payload (lit "hi") []) _))
    overloaded_response _ _).
  - vm_compute. right. right. left. reflexivity.
  - reflexivity.
  - cbn. lia.
Defined.

(** X16 *)
Lemma chat_payload_errors_witness :
  reply_of (run (chat (request (Some (lit "hi")) None None))
              (with_reply (inr garbled_response)))
  = error (lit "Failed to connect to Ollama: " ++ lit "Expecting value") 500
  /\ exists e,
       reply_of (run (chat (request (Some (lit "hi")) None None))
                   (with_reply (inr list_response)))
       = Unhandled e.
Proof.
  split.
  - refine (proj1
      (@chat_payload_errors World runtime
         (request (Some (lit "hi")) None None)
         (with_reply (inr garbled_response)) (payload (lit "hi") []) _)
      garbled_response (lit "Expecting value") _ _ _).
    + vm_compute. right. right. left. reflexivity.
    + reflexivity.
    + left. cbn. lia.
    + reflexivity.
  - refine (proj1 (proj2
      (@chat_payload_errors World runtime
         (request (Some (lit "hi")) None None)
         (with_reply (inr list_response)) (payload (lit "hi") []) _))
      list_response (JList [JStr (lit "fine")]) _ _ _ _).
    + vm_compute. right. right. left. reflexivity.
    + reflexivity.
    + left. cbn. lia.
    + reflexivity.
    + intros items H. discriminate H.
Defined.

(** X17 *)
Lemma chat_success_statuses_witness :
  reply_of (run (chat (request (Some (lit "hi")) None None))
              (with_reply (inr redirect_response)))
  = JSONResponse
      (JDict [(lit "response",
               match dict_lookup
                       [(lit "model", JStr MODEL_NAME);
                        (lit "response", JStr (lit "fine"))]
                       (lit "response") with
               | Some v => v
               | None => JStr []
               end)]) 200.
Proof.
  refine (@chat_success_statuses World runtime
            (request (Some (lit "hi")) None None)
            (with_reply (inr redirect_response)) (payload (lit "hi") [])
            redirect_response
            [(lit "model", JStr MODEL_NAME);
             (lit "response", JStr (lit "fine"))] _ _ _ _).
  - vm_compute. right. right. left. reflexivity.
  - reflexivity.
  - left. cbn. lia.
  - reflexivity.
Defined.

(** X18 *)
Lemma chat_only_reads_witness :
  chat_call (request None (Some (lit "scan.pdf")) None)
    (PdfOpen (lit "uploads/scan.pdf")).
Proof.
  refine (proj1 (@chat_only_reads World runtime
                   (request None (Some (lit "scan.pdf")) None) ready)
            (PdfOpen (lit "uploads/scan.pdf")) _).
  vm_compute. do 4 right. left. reflexivity.
Defined.


(** X20 *)
Lemma prompt_cropped_by_document_witness :
  truncate_prompt (construct_prompt long_document [] (lit "summarize"))
  = firstn 4000 (document_header ++ long_document) ++ truncation_marker
  /\ truncate_prompt (construct_prompt long_document [] (lit "summarize"))
     = truncate_prompt (construct_prompt long_document [] (lit "translate")).
Proof.
  refine (@prompt_cropped_by_document long_document []
            (lit "summarize") (lit "translate") _ _).
  - vm_compute. reflexivity.
  - apply Nat.leb_le. vm_compute. reflexivity.
Defined.

(** X21 *)
Lemma truncate_prompt_idempotent_witness :
  firstn 4000 (truncate_prompt long_prompt) = firstn 4000 long_prompt
  /\ truncate_prompt (truncate_prompt long_prompt)
     = truncate_prompt long_prompt.
Proof. exact (truncate_prompt_idempotent long_prompt). Defined.

(** X22 *)
Lemma extract_pages_lines_witness :
  extract_pages [text_page (lit "one"); scanned_page; text_page (lit "two")]
    []
  = inr ([] ++ flat_map page_line
                 [text_page (lit "one"); scanned_page;
                  text_page (lit "two")]).
Proof.
  refine (proj1 (extract_pages_lines
                   [text_page (lit "one"); scanned_page;
                    text_page (lit "two")] []) _).
  repeat constructor; eexists; reflexivity.
Defined.

(** The lines of three pages, the middle one without text. *)
Example extract_pages_three :
  extract_pages [text_page (lit "one"); scanned_page; text_page (lit "two")]
    []
  = inr (lit "one" ++ [LF] ++ lit "two" ++ [LF]).
Proof. reflexivity. Qed.

End MoreRuns.
